(** * The debugger web client: orchestration workflows and the cross-check presenter

    A shallow embedding of [webapp/static/main.js].  The script is
    untyped: every remote response is a JSON value that the code probes with
    property reads, truthiness tests and [||] defaults, so the embedding
    keeps JavaScript values ([Js.JsValue]) and their coercions instead of
    typed records.  The page (editor, form fields, status line, cross-check
    panel) is an explicit state, the asynchronous functions are computations
    in a state-and-exception monad, and the remote services are a parameter
    that answers every [fetch]. *)

From Stdlib Require Import ZArith List String Ascii Bool Lia DecimalString DecimalPos.
Import ListNotations.
Open Scope string_scope.

(** ** Text helpers *)

Definition Z_to_string (z : Z) : string := NilZero.string_of_int (Z.to_int z).

Fixpoint join (sep : string) (parts : list string) : string :=
  match parts with
  | [] => ""
  | [p] => p
  | p :: rest => p ++ sep ++ join sep rest
  end.

Fixpoint repeat_string (s : string) (n : nat) : string :=
  match n with
  | O => ""
  | S k => s ++ repeat_string s k
  end.

Definition code (c : ascii) : nat := nat_of_ascii c.

(** The double quote and the line feed, as one-character strings. *)
Definition dq : string := String (ascii_of_nat 34) EmptyString.
Definition nl : string := String (ascii_of_nat 10) EmptyString.

(** [String.prototype.toLowerCase], on the ASCII letters; letters beyond
    ASCII are left as they are (their case mappings are not modelled). *)
Definition lower_char (c : ascii) : ascii :=
  if (65 <=? code c)%nat && (code c <=? 90)%nat then ascii_of_nat (code c + 32) else c.

Fixpoint toLowerCase (s : string) : string :=
  match s with
  | EmptyString => EmptyString
  | String c r => String (lower_char c) (toLowerCase r)
  end.

(** White space as [String.prototype.trim] strips it: the code points of
    WhiteSpace and LineTerminator.  Text is its sequence of UTF-8 bytes, so
    a code point beyond ASCII is the run of bytes that encodes it. *)

(** TAB, LF, VT, FF, CR, SPACE. *)
Definition is_space (c : ascii) : bool :=
  ((9 <=? code c)%nat && (code c <=? 13)%nat) || (code c =? 32)%nat.

(** U+00A0. *)
Definition is_space2 (a b : ascii) : bool := (code a =? 194)%nat && (code b =? 160)%nat.

(** U+1680, U+2000 to U+200A, U+2028, U+2029, U+202F, U+205F, U+3000, U+FEFF. *)
Definition is_space3 (a b c : ascii) : bool :=
  ((code a =? 225)%nat && (code b =? 154)%nat && (code c =? 128)%nat)
  || ((code a =? 226)%nat && (code b =? 128)%nat
      && (((128 <=? code c)%nat && (code c <=? 138)%nat)
          || (code c =? 168)%nat || (code c =? 169)%nat || (code c =? 175)%nat))
  || ((code a =? 226)%nat && (code b =? 129)%nat && (code c =? 159)%nat)
  || ((code a =? 227)%nat && (code b =? 128)%nat && (code c =? 128)%nat)
  || ((code a =? 239)%nat && (code b =? 187)%nat && (code c =? 191)%nat).

Fixpoint trim_start (s : string) : string :=
  match s with
  | EmptyString => EmptyString
  | String a r =>
      if is_space a then trim_start r
      else
        match r with
        | String b r1 =>
            if is_space2 a b then trim_start r1
            else
              match r1 with
              | String c r2 => if is_space3 a b c then trim_start r2 else s
              | EmptyString => s
              end
        | EmptyString => s
        end
  end.

(** The text up to its last character that is not white space. *)
Fixpoint trim_end (s : string) : string :=
  match s with
  | EmptyString => EmptyString
  | String c r => if trim_start s =? EmptyString then EmptyString else String c (trim_end r)
  end.

Definition trim (s : string) : string := trim_end (trim_start s).

Definition is_digit (c : ascii) : bool := (48 <=? code c)%nat && (code c <=? 57)%nat.

Definition digit_val (c : ascii) : Z := Z.of_nat (code c - 48).

(** ** JavaScript values *)

Module Js.

(** A number is kept as the decimal [mant * 10 ^ expo] that a JSON literal
    denotes; integers are [expo = 0].  Binary rounding of IEEE doubles and
    the exponent notation of very large or small numbers are not modelled:
    the text of a number is the one of JavaScript for integers below 10^21
    in size, and [parseInt] is exact for integers below 2^53 in size. *)
Record Number := mkNumber { mant : Z; expo : Z }.

#[warnings="-register-all"]
Inductive JsValue :=
| JUndefined
| JNull
| JBool (b : bool)
| JNum (n : Number)
| JStr (s : string)
| JArr (items : list JsValue)
| JObj (fields : list (string * JsValue)).

Definition JInt (z : Z) : JsValue := JNum (mkNumber z 0).

Fixpoint strip_zeros (fuel : nat) (m e : Z) : Number :=
  match fuel with
  | O => mkNumber m e
  | S f =>
      if (e <? 0)%Z && (m mod 10 =? 0)%Z
      then strip_zeros f (m / 10)%Z (e + 1)%Z
      else mkNumber m e
  end.

(** Canonical form: integers have exponent 0, other decimals no trailing zero. *)
Definition normalize (m e : Z) : Number :=
  if (m =? 0)%Z then mkNumber 0 0
  else if (0 <=? e)%Z then mkNumber (m * 10 ^ e)%Z 0
  else strip_zeros (Z.to_nat (- e)) m e.

Definition number_to_string (n : Number) : string :=
  if (0 <=? expo n)%Z then Z_to_string (mant n * 10 ^ expo n)%Z
  else
    let ds := Z_to_string (Z.abs (mant n)) in
    let k := Z.to_nat (- expo n) in
    let len := String.length ds in
    (if (mant n <? 0)%Z then "-" else "") ++
    (if (k <? len)%nat
     then substring 0 (len - k) ds ++ "." ++ substring (len - k) k ds
     else "0." ++ repeat_string "0" (k - len) ++ ds).

(** ToBoolean. *)
Definition truthy (v : JsValue) : bool :=
  match v with
  | JUndefined | JNull => false
  | JBool b => b
  | JNum n => negb (mant n =? 0)%Z
  | JStr s => negb (s =? "")
  | JArr _ | JObj _ => true
  end.

(** [a || b] *)
Definition or_else (a b : JsValue) : JsValue := if truthy a then a else b.

(** ToString, as string concatenation, template literals and [String(x)] apply it. *)
Fixpoint to_string (v : JsValue) : string :=
  match v with
  | JUndefined => "undefined"
  | JNull => "null"
  | JBool true => "true"
  | JBool false => "false"
  | JNum n => number_to_string n
  | JStr s => s
  | JArr items =>
      join "," ((fix each (l : list JsValue) : list string :=
                   match l with
                   | [] => []
                   | JUndefined :: r | JNull :: r => "" :: each r
                   | x :: r => to_string x :: each r
                   end) items)
  | JObj _ => "[object Object]"
  end.

Fixpoint lookup (k : string) (fields : list (string * JsValue)) : JsValue :=
  match fields with
  | [] => JUndefined
  | (k', v) :: rest => if k' =? k then v else lookup k rest
  end.

(** [v.k] for a receiver that is neither [null] nor [undefined] (reading a
    property of those throws, see [App.member]).  Only own data properties
    and [length] exist on the values of this program. *)
Definition get (v : JsValue) (k : string) : JsValue :=
  match v with
  | JObj fields => lookup k fields
  | JArr items => if k =? "length" then JInt (Z.of_nat (List.length items)) else JUndefined
  | JStr s => if k =? "length" then JInt (Z.of_nat (String.length s)) else JUndefined
  | _ => JUndefined
  end.

Definition nullish (v : JsValue) : bool :=
  match v with
  | JUndefined | JNull => true
  | _ => false
  end.

Definition isArray (v : JsValue) : bool :=
  match v with
  | JArr _ => true
  | _ => false
  end.

(** The elements of an array value ([[]] for anything else). *)
Definition items_of (v : JsValue) : list JsValue :=
  match v with
  | JArr items => items
  | _ => []
  end.

(** [parseInt(s, 10)]: leading white space, an optional sign, then the
    longest run of digits; [None] is NaN. *)
Fixpoint digits_value (acc : Z) (s : string) : Z :=
  match s with
  | String c r => if is_digit c then digits_value (acc * 10 + digit_val c)%Z r else acc
  | EmptyString => acc
  end.

Definition starts_with_digit (s : string) : bool :=
  match s with
  | String c _ => is_digit c
  | EmptyString => false
  end.

Definition parseInt (s : string) : option Z :=
  match trim_start s with
  | String "-" r => if starts_with_digit r then Some (- digits_value 0 r)%Z else None
  | String "+" r => if starts_with_digit r then Some (digits_value 0 r) else None
  | r => if starts_with_digit r then Some (digits_value 0 r) else None
  end.

(** [parseInt(s, 10) || 0] *)
Definition parseInt_or_0 (s : string) : JsValue :=
  match parseInt s with
  | Some z => JInt z
  | None => JInt 0
  end.

End Js.

Import Js.

(** ** JSON text

    [JSON.stringify(v, null, 2)] and [JSON.parse].  Object properties are
    kept in insertion order (the reordering of integer-like keys is not
    modelled); text is a sequence of bytes, a [\u] escape is read into its
    UTF-8 bytes. *)

Module Json.

Definition hex_digit (n : nat) : ascii :=
  ascii_of_nat (if (n <? 10)%nat then 48 + n else 87 + n).

(** QuoteJSONString, character by character. *)
Definition quote_char (c : ascii) : string :=
  let n := code c in
  if (n =? 34)%nat then "\" ++ dq
  else if (n =? 92)%nat then "\\"
  else if (n =? 8)%nat then "\b"
  else if (n =? 12)%nat then "\f"
  else if (n =? 10)%nat then "\n"
  else if (n =? 13)%nat then "\r"
  else if (n =? 9)%nat then "\t"
  else if (n <? 32)%nat
       then "\u00" ++ String (hex_digit (n / 16)) (String (hex_digit (n mod 16)) EmptyString)
  else String c EmptyString.

Fixpoint quote_body (s : string) : string :=
  match s with
  | EmptyString => EmptyString
  | String c r => quote_char c ++ quote_body r
  end.

Definition quote (s : string) : string := dq ++ quote_body s ++ dq.

(** SerializeJSONProperty with a gap of two spaces; [None] is [undefined]. *)
Fixpoint serialize (indent : string) (v : JsValue) : option string :=
  let inner := indent ++ "  " in
  match v with
  | JUndefined => None
  | JNull => Some "null"
  | JBool true => Some "true"
  | JBool false => Some "false"
  | JNum n => Some (number_to_string n)
  | JStr s => Some (quote s)
  | JArr items =>
      let parts :=
        (fix each (l : list JsValue) : list string :=
           match l with
           | [] => []
           | x :: r =>
               match serialize inner x with
               | Some t => t
               | None => "null"
               end :: each r
           end) items in
      match parts with
      | [] => Some "[]"
      | _ => Some ("[" ++ nl ++ inner ++ join ("," ++ nl ++ inner) parts ++ nl ++ indent ++ "]")
      end
  | JObj fields =>
      let parts :=
        (fix each (l : list (string * JsValue)) : list string :=
           match l with
           | [] => []
           | (k, x) :: r =>
               match serialize inner x with
               | Some t => (quote k ++ ": " ++ t) :: each r
               | None => each r
               end
           end) fields in
      match parts with
      | [] => Some "{}"
      | _ => Some ("{" ++ nl ++ inner ++ join ("," ++ nl ++ inner) parts ++ nl ++ indent ++ "}")
      end
  end.

Definition stringify (v : JsValue) : option string := serialize "" v.

(** What an assignment of [JSON.stringify(v, null, 2)] to a text field stores. *)
Definition stringify_text (v : JsValue) : string :=
  match stringify v with
  | Some t => t
  | None => "undefined"
  end.

(** *** Reading *)

Definition is_ws (c : ascii) : bool :=
  let n := code c in
  (n =? 32)%nat || (n =? 9)%nat || (n =? 10)%nat || (n =? 13)%nat.

Fixpoint skip_ws (s : string) : string :=
  match s with
  | String c r => if is_ws c then skip_ws r else s
  | EmptyString => EmptyString
  end.

Definition hex_val (c : ascii) : option N :=
  let n := N_of_ascii c in
  if (48 <=? n)%N && (n <=? 57)%N then Some (n - 48)%N
  else if (97 <=? n)%N && (n <=? 102)%N then Some (n - 87)%N
  else if (65 <=? n)%N && (n <=? 70)%N then Some (n - 55)%N
  else None.

(** Four hexadecimal digits. *)
Definition hex4 (s : string) : option (N * string) :=
  match s with
  | String a (String b (String c (String d r))) =>
      match hex_val a, hex_val b, hex_val c, hex_val d with
      | Some x, Some y, Some z, Some w => Some (((x * 16 + y) * 16 + z) * 16 + w, r)%N
      | _, _, _, _ => None
      end
  | _ => None
  end.

Definition utf8 (cp : N) : string :=
  let b (n : N) := ascii_of_N n in
  (if cp <? 128 then String (b cp) EmptyString
   else if cp <? 2048
        then String (b (192 + cp / 64)) (String (b (128 + cp mod 64)) EmptyString)
   else if cp <? 65536
        then String (b (224 + cp / 4096))
               (String (b (128 + (cp / 64) mod 64)) (String (b (128 + cp mod 64)) EmptyString))
   else String (b (240 + cp / 262144))
          (String (b (128 + (cp / 4096) mod 64))
             (String (b (128 + (cp / 64) mod 64)) (String (b (128 + cp mod 64)) EmptyString))))%N.

(** The escape after [\u]: one code unit, or a surrogate pair. *)
Definition unicode_escape (s : string) : option (string * string) :=
  match hex4 s with
  | None => None
  | Some (hi, r) =>
      if (55296 <=? hi)%N && (hi <? 56320)%N then
        match r with
        | String "\" (String "u" r2) =>
            match hex4 r2 with
            | Some (lo, r3) =>
                if (56320 <=? lo)%N && (lo <? 57344)%N
                then Some (utf8 (65536 + (hi - 55296) * 1024 + (lo - 56320))%N, r3)
                else Some (utf8 hi, r)
            | None => Some (utf8 hi, r)
            end
        | _ => Some (utf8 hi, r)
        end
      else Some (utf8 hi, r)
  end.

(** The characters of a string literal after its opening quote. *)
Fixpoint parse_string (fuel : nat) (s : string) : option (string * string) :=
  match fuel with
  | O => None
  | S f =>
      match s with
      | EmptyString => None
      | String c r =>
          if (code c =? 34)%nat then Some (EmptyString, r)
          else if (code c <? 32)%nat then None
          else if (code c =? 92)%nat then
            match r with
            | String e r2 =>
                let continue (t rest : string) :=
                  match parse_string f rest with
                  | Some (body, rest') => Some (t ++ body, rest')
                  | None => None
                  end in
                let one (n : nat) := continue (String (ascii_of_nat n) EmptyString) r2 in
                match code e with
                | 34 => one 34
                | 92 => one 92
                | 47 => one 47
                | 98 => one 8
                | 102 => one 12
                | 110 => one 10
                | 114 => one 13
                | 116 => one 9
                | 117 =>
                    match unicode_escape r2 with
                    | Some (t, r3) => continue t r3
                    | None => None
                    end
                | _ => None
                end
            | EmptyString => None
            end
          else
            match parse_string f r with
            | Some (body, rest) => Some (String c body, rest)
            | None => None
            end
      end
  end.

(** A run of digits: its value continued from [acc], how many, and the rest. *)
Fixpoint digits (acc : Z) (count : nat) (s : string) : Z * nat * string :=
  match s with
  | String c r => if is_digit c then digits (acc * 10 + digit_val c)%Z (S count) r
                  else (acc, count, s)
  | EmptyString => (acc, count, s)
  end.

(** [-? int frac? exp?] *)
Definition parse_number (s : string) : option (Number * string) :=
  let (neg, s1) := match s with
                   | String "-" r => (true, r)
                   | _ => (false, s)
                   end in
  let int_part :=
    match s1 with
    | String "0" r => Some (0%Z, r)
    | _ => let '(v, n, r) := digits 0 0 s1 in
           if (n =? 0)%nat then None else Some (v, r)
    end in
  match int_part with
  | None => None
  | Some (iv, s2) =>
      let frac :=
        match s2 with
        | String "." r =>
            let '(v, n, r') := digits iv 0 r in
            if (n =? 0)%nat then None else Some (v, n, r')
        | _ => Some (iv, 0%nat, s2)
        end in
      match frac with
      | None => None
      | Some (m, fn, s3) =>
          let signed := if neg then (- m)%Z else m in
          let finish (e : Z) (rest : string) :=
            Some (normalize signed (e - Z.of_nat fn)%Z, rest) in
          let exponent (r : string) (sign : Z) :=
            let '(v, n, r') := digits 0 0 r in
            if (n =? 0)%nat then None else finish (sign * v)%Z r' in
          match s3 with
          | String "e" (String "-" r) | String "E" (String "-" r) => exponent r (-1)%Z
          | String "e" (String "+" r) | String "E" (String "+" r) => exponent r 1%Z
          | String "e" r | String "E" r => exponent r 1%Z
          | _ => finish 0%Z s3
          end
      end
  end.

(** Defining a property: a repeated key keeps its place and takes the later value. *)
Fixpoint set_field (k : string) (v : JsValue) (fields : list (string * JsValue))
  : list (string * JsValue) :=
  match fields with
  | [] => [(k, v)]
  | (k', v') :: rest => if k' =? k then (k, v) :: rest else (k', v') :: set_field k v rest
  end.

Definition literal (word : string) (v : JsValue) (s : string) : option (JsValue * string) :=
  if prefix word s
  then Some (v, substring (String.length word) (String.length s - String.length word) s)
  else None.

(** A value at the head of [s] (white space already skipped), and the rest. *)
Fixpoint parse_value (fuel : nat) (s : string) : option (JsValue * string) :=
  match fuel with
  | O => None
  | S f =>
      match s with
      | EmptyString => None
      | String c r =>
          match code c with
          | 123 =>
              match skip_ws r with
              | String "}" r' => Some (JObj [], r')
              | r' => parse_members f r' []
              end
          | 91 =>
              match skip_ws r with
              | String "]" r' => Some (JArr [], r')
              | r' => parse_elements f r' []
              end
          | 34 =>
              match parse_string (S (String.length r)) r with
              | Some (t, r') => Some (JStr t, r')
              | None => None
              end
          | 116 => literal "true" (JBool true) s
          | 102 => literal "false" (JBool false) s
          | 110 => literal "null" JNull s
          | _ =>
              match parse_number s with
              | Some (n, r') => Some (JNum n, r')
              | None => None
              end
          end
      end
  end
with parse_elements (fuel : nat) (s : string) (acc : list JsValue)
  : option (JsValue * string) :=
  match fuel with
  | O => None
  | S f =>
      match parse_value f s with
      | None => None
      | Some (v, r) =>
          match skip_ws r with
          | String "," r' => parse_elements f (skip_ws r') (acc ++ [v])
          | String "]" r' => Some (JArr (acc ++ [v]), r')
          | _ => None
          end
      end
  end
with parse_members (fuel : nat) (s : string) (acc : list (string * JsValue))
  : option (JsValue * string) :=
  match fuel with
  | O => None
  | S f =>
      match s with
      | String c r =>
          if (code c =? 34)%nat then
            match parse_string (S (String.length r)) r with
            | None => None
            | Some (k, r1) =>
                match skip_ws r1 with
                | String ":" r2 =>
                    match parse_value f (skip_ws r2) with
                    | None => None
                    | Some (v, r3) =>
                        match skip_ws r3 with
                        | String "," r4 => parse_members f (skip_ws r4) (set_field k v acc)
                        | String "}" r4 => Some (JObj (set_field k v acc), r4)
                        | _ => None
                        end
                    end
                | _ => None
                end
            end
          else None
      | EmptyString => None
      end
  end.

(** [JSON.parse(text)]; [None] is the SyntaxError it throws. *)
Definition parse (text : string) : option JsValue :=
  match parse_value (2 * String.length text + 2) (skip_ws text) with
  | Some (v, r) =>
      match skip_ws r with
      | EmptyString => Some v
      | _ => None
      end
  | None => None
  end.

End Json.

(** ** Markup

    Assigning [innerHTML] parses markup into a tree, and the presenter later
    reads [textContent] and class lists back from that tree.  This is the
    part of the HTML fragment parser that the markup of this program
    exercises: the preprocessing of the input (a carriage return, alone or
    before a line feed, becomes one line feed), text, start and end tags
    with attributes, the character references [&amp;] [&lt;] [&gt;]
    [&quot;], NUL (dropped from text, U+FFFD in names and attribute values),
    and generic or void elements.  Outside that fragment the model is not
    the parser: numeric references and the other named ones stay literal,
    comments and declarations are skipped up to the next [>], and the
    special parsing rules of individual elements (formatting elements,
    tables, scripts, implied end tags) are absent.  The properties below
    are stated for markup inside the fragment. *)

Module Html.

#[warnings="-register-all"]
Inductive Node :=
| Text (s : string)
| Element (tag : string) (attrs : list (string * string)) (children : list Node).

Inductive Token :=
| TChar (c : ascii)
| TStart (tag : string) (attrs : list (string * string))
| TEnd (tag : string).

(** A tag being read. *)
Record Tag := mkTag { closing : bool; name : string; attrs : list (string * string) }.

Inductive Quote := DoubleQuoted | SingleQuoted | Unquoted.

(** Where a character reference was met: in text, or in an attribute value. *)
Inductive RefCtx :=
| InData
| InAttr (q : Quote) (t : Tag) (k v : string).

Inductive State :=
| Data
| TagOpen
| EndTagOpen
| TagName (t : Tag)
| BeforeAttrName (t : Tag)
| AttrName (t : Tag) (k : string)
| AfterAttrName (t : Tag) (k : string)
| BeforeAttrValue (t : Tag) (k : string)
| AttrValue (q : Quote) (t : Tag) (k v : string)
| AfterAttrValue (t : Tag)
| SelfClosing (t : Tag)
| BogusComment
| CharRef (ctx : RefCtx) (buf : string).

Definition is_alpha (c : ascii) : bool :=
  let n := code c in
  ((65 <=? n)%nat && (n <=? 90)%nat) || ((97 <=? n)%nat && (n <=? 122)%nat).

(** TAB, LF, FF, CR, SPACE. *)
Definition is_html_space (c : ascii) : bool :=
  let n := code c in
  (n =? 9)%nat || (n =? 10)%nat || (n =? 12)%nat || (n =? 13)%nat || (n =? 32)%nat.

Definition snoc (s : string) (c : ascii) : string := s ++ String c EmptyString.

Definition lf : ascii := ascii_of_nat 10.
Definition cr : ascii := ascii_of_nat 13.
Definition nul : ascii := ascii_of_nat 0.

(** Preprocessing of the input stream: CR LF and a lone CR become LF. *)
Fixpoint preprocess (s : string) : string :=
  match s with
  | EmptyString => EmptyString
  | String c r =>
      if (code c =? 13)%nat then
        match r with
        | String d _ => if (code d =? 10)%nat then preprocess r else String lf (preprocess r)
        | EmptyString => String lf EmptyString
        end
      else String c (preprocess r)
  end.

(** A character as a name or an attribute value takes it: U+FFFD for NUL. *)
Definition replaced (c : ascii) : string :=
  if (code c =? 0)%nat
  then String (ascii_of_nat 239) (String (ascii_of_nat 191) (String (ascii_of_nat 189) EmptyString))
  else String c EmptyString.

Fixpoint has_key (k : string) (l : list (string * string)) : bool :=
  match l with
  | [] => false
  | (k', _) :: r => (k' =? k) || has_key k r
  end.

(** A repeated attribute name is dropped: the first one stands. *)
Definition add_attr (t : Tag) (k v : string) : Tag :=
  if has_key k (attrs t) then t
  else mkTag (closing t) (name t) (attrs t ++ [(k, v)])%list.

Definition emit (t : Tag) : list Token :=
  if closing t then [TEnd (name t)] else [TStart (name t) (attrs t)].

Fixpoint chars (s : string) : list Token :=
  match s with
  | EmptyString => []
  | String c r => TChar c :: chars r
  end.

(** The named references this model decodes, without their ampersand. *)
Definition references : list (string * ascii) :=
  [("amp;", "&"%char); ("lt;", "<"%char); ("gt;", ">"%char); ("quot;", ascii_of_nat 34)].

Fixpoint reference_of (buf : string) (l : list (string * ascii)) : option ascii :=
  match l with
  | [] => None
  | (n, c) :: r => if n =? buf then Some c else reference_of buf r
  end.

Definition reference_prefix (buf : string) : bool :=
  existsb (fun e => prefix buf (fst e)) references.

Definition step_data (c : ascii) : list Token * State :=
  if (code c =? 38)%nat then ([], CharRef InData EmptyString)
  else if (code c =? 60)%nat then ([], TagOpen)
  else ([TChar c], Data).

Definition step_attr_value (q : Quote) (t : Tag) (k v : string) (c : ascii)
  : list Token * State :=
  let n := code c in
  if (n =? 38)%nat then ([], CharRef (InAttr q t k v) EmptyString)
  else
    match q with
    | DoubleQuoted =>
        if (n =? 34)%nat then ([], AfterAttrValue (add_attr t k v))
        else ([], AttrValue q t k (v ++ replaced c))
    | SingleQuoted =>
        if (n =? 39)%nat then ([], AfterAttrValue (add_attr t k v))
        else ([], AttrValue q t k (v ++ replaced c))
    | Unquoted =>
        if is_html_space c then ([], BeforeAttrName (add_attr t k v))
        else if (n =? 62)%nat then (emit (add_attr t k v), Data)
        else ([], AttrValue q t k (v ++ replaced c))
    end.

Definition step_before_attr_name (t : Tag) (c : ascii) : list Token * State :=
  let n := code c in
  if is_html_space c then ([], BeforeAttrName t)
  else if (n =? 47)%nat then ([], SelfClosing t)
  else if (n =? 62)%nat then (emit t, Data)
  else ([], AttrName t (replaced (lower_char c))).

(** Text, or characters of an attribute value, delivered where a reference stood. *)
Definition deliver (ctx : RefCtx) (s : string) : list Token * State :=
  match ctx with
  | InData => (chars s, Data)
  | InAttr q t k v => ([], AttrValue q t k (v ++ s))
  end.

Definition step_in (ctx : RefCtx) (c : ascii) : list Token * State :=
  match ctx with
  | InData => step_data c
  | InAttr q t k v => step_attr_value q t k v c
  end.

(** One character of input. *)
Definition step (st : State) (c : ascii) : list Token * State :=
  let n := code c in
  match st with
  | Data => step_data c
  | TagOpen =>
      if (n =? 47)%nat then ([], EndTagOpen)
      else if is_alpha c then ([], TagName (mkTag false (String (lower_char c) EmptyString) []))
      else if (n =? 33)%nat || (n =? 63)%nat then ([], BogusComment)
      else let (ts, st') := step_data c in (TChar "<" :: ts, st')
  | EndTagOpen =>
      if is_alpha c then ([], TagName (mkTag true (String (lower_char c) EmptyString) []))
      else if (n =? 62)%nat then ([], Data)
      else ([], BogusComment)
  | TagName t =>
      if is_html_space c then ([], BeforeAttrName t)
      else if (n =? 47)%nat then ([], SelfClosing t)
      else if (n =? 62)%nat then (emit t, Data)
      else ([], TagName (mkTag (closing t) (name t ++ replaced (lower_char c)) (attrs t)))
  | BeforeAttrName t => step_before_attr_name t c
  | AttrName t k =>
      if is_html_space c then ([], AfterAttrName t k)
      else if (n =? 47)%nat then ([], SelfClosing (add_attr t k EmptyString))
      else if (n =? 62)%nat then (emit (add_attr t k EmptyString), Data)
      else if (n =? 61)%nat then ([], BeforeAttrValue t k)
      else ([], AttrName t (k ++ replaced (lower_char c)))
  | AfterAttrName t k =>
      if is_html_space c then ([], AfterAttrName t k)
      else if (n =? 61)%nat then ([], BeforeAttrValue t k)
      else step_before_attr_name (add_attr t k EmptyString) c
  | BeforeAttrValue t k =>
      if is_html_space c then ([], BeforeAttrValue t k)
      else if (n =? 34)%nat then ([], AttrValue DoubleQuoted t k EmptyString)
      else if (n =? 39)%nat then ([], AttrValue SingleQuoted t k EmptyString)
      else if (n =? 62)%nat then (emit (add_attr t k EmptyString), Data)
      else step_attr_value Unquoted t k EmptyString c
  | AttrValue q t k v => step_attr_value q t k v c
  | AfterAttrValue t => step_before_attr_name t c
  | SelfClosing t => step_before_attr_name t c
  | BogusComment => if (n =? 62)%nat then ([], Data) else ([], BogusComment)
  | CharRef ctx buf =>
      let buf' := snoc buf c in
      match reference_of buf' references with
      | Some d => deliver ctx (String d EmptyString)
      | None =>
          if reference_prefix buf' then ([], CharRef ctx buf')
          else
            let (ts, st') := deliver ctx ("&" ++ buf) in
            match st' with
            | AttrValue q t k v => step_attr_value q t k v c
            | _ => let (ts', st'') := step_data c in ((ts ++ ts')%list, st'')
            end
      end
  end.

(** The tokens of [s] from state [st], and the state at its end. *)
Fixpoint run (st : State) (s : string) : list Token * State :=
  match s with
  | EmptyString => ([], st)
  | String c r =>
      let (ts, st') := step st c in
      let (ts', st'') := run st' r in
      ((ts ++ ts')%list, st'')
  end.

(** What the end of input still delivers. *)
Definition finish (st : State) : list Token :=
  match st with
  | TagOpen => [TChar "<"]
  | EndTagOpen => [TChar "<"; TChar "/"]
  | CharRef InData buf => chars ("&" ++ buf)
  | _ => []
  end.

Definition tokens_of (s : string) : list Token :=
  let (ts, st) := run Data s in (ts ++ finish st)%list.

Definition tokenize (s : string) : list Token := tokens_of (preprocess s).

(** *** Tree construction

    The insertion mode is the one of a fragment parsed inside a list item
    (in body): character tokens become text, a NUL token is ignored. *)

(** An open element: its children so far, latest first. *)
Record Frame := mkFrame { ftag : string; fattrs : list (string * string); fkids : list Node }.

Definition root : Frame := mkFrame EmptyString [] [].

Definition add_node (f : Frame) (n : Node) : Frame :=
  mkFrame (ftag f) (fattrs f) (n :: fkids f).

Definition add_char (f : Frame) (c : ascii) : Frame :=
  match fkids f with
  | Text s :: r => mkFrame (ftag f) (fattrs f) (Text (snoc s c) :: r)
  | kids => mkFrame (ftag f) (fattrs f) (Text (String c EmptyString) :: kids)
  end.

Definition element_of (f : Frame) : Node := Element (ftag f) (fattrs f) (rev (fkids f)).

Definition is_void (tag : string) : bool :=
  existsb (String.eqb tag)
    ["area"; "base"; "br"; "col"; "embed"; "hr"; "img"; "input"; "link"; "meta";
     "source"; "track"; "wbr"].

(** Close open elements up to and including the nearest one named [tag]. *)
Fixpoint close_to (tag : string) (stack : list Frame) (cur : Frame) : list Frame * Frame :=
  match stack with
  | [] => ([], cur)
  | parent :: rest =>
      let parent' := add_node parent (element_of cur) in
      if ftag cur =? tag then (rest, parent') else close_to tag rest parent'
  end.

Fixpoint close_all (stack : list Frame) (cur : Frame) : Frame :=
  match stack with
  | [] => cur
  | parent :: rest => close_all rest (add_node parent (element_of cur))
  end.

Fixpoint build (stack : list Frame) (cur : Frame) (toks : list Token) : list Node :=
  match toks with
  | [] => rev (fkids (close_all stack cur))
  | TChar c :: r =>
      if (code c =? 0)%nat then build stack cur r else build stack (add_char cur c) r
  | TStart tag a :: r =>
      if is_void tag then build stack (add_node cur (Element tag a [])) r
      else build (cur :: stack) (mkFrame tag a []) r
  | TEnd tag :: r =>
      if existsb (fun f => ftag f =? tag) (cur :: stack)
      then let (stack', cur') := close_to tag stack cur in build stack' cur' r
      else build stack cur r
  end.

(** The children an element gets when [markup] is assigned to its [innerHTML]. *)
Definition parse_fragment (markup : string) : list Node := build [] root (tokenize markup).

(** *** Reading the tree *)

Fixpoint textContent (n : Node) : string :=
  match n with
  | Text s => s
  | Element _ _ kids =>
      (fix all (l : list Node) : string :=
         match l with
         | [] => EmptyString
         | k :: r => textContent k ++ all r
         end) kids
  end.

(** The element and its descendant elements, in document order. *)
Fixpoint subtree (n : Node) : list Node :=
  match n with
  | Text _ => []
  | Element _ _ kids =>
      n :: (fix all (l : list Node) : list Node :=
              match l with
              | [] => []
              | k :: r => (subtree k ++ all r)%list
              end) kids
  end.

Definition descendants (kids : list Node) : list Node := flat_map subtree kids.

Fixpoint attr (k : string) (l : list (string * string)) : option string :=
  match l with
  | [] => None
  | (k', v) :: r => if k' =? k then Some v else attr k r
  end.

(** The white-space separated tokens of a class attribute. *)
Fixpoint tokens (cur : string) (s : string) : list string :=
  match s with
  | EmptyString => if cur =? EmptyString then [] else [cur]
  | String c r =>
      if is_html_space c
      then (if cur =? EmptyString then tokens EmptyString r else cur :: tokens EmptyString r)
      else tokens (snoc cur c) r
  end.

Definition classList (n : Node) : list string :=
  match n with
  | Text _ => []
  | Element _ a _ =>
      match attr "class" a with
      | Some v => tokens EmptyString v
      | None => []
      end
  end.

Definition has_class (cls : string) (n : Node) : bool := existsb (String.eqb cls) (classList n).

(** [querySelectorAll('.cls')] and [querySelector('.cls')] below an element
    with children [kids]. *)
Definition querySelectorAll (cls : string) (kids : list Node) : list Node :=
  filter (has_class cls) (descendants kids).

Definition querySelector (cls : string) (kids : list Node) : option Node :=
  hd_error (querySelectorAll cls kids).

End Html.

(** ** The page and the remote services *)

Inductive Endpoint :=
| ApiAnalyze
| ApiApply
| ApiCrosscheck
| ApiRun
| ApiFixFromCrosscheck
| ApiVisionAnalyze.

Definition url (e : Endpoint) : string :=
  match e with
  | ApiAnalyze => "/api/analyze"
  | ApiApply => "/api/apply"
  | ApiCrosscheck => "/api/crosscheck"
  | ApiRun => "/api/run"
  | ApiFixFromCrosscheck => "/api/fix_from_crosscheck"
  | ApiVisionAnalyze => "/api/vision_analyze"
  end.

(** What a run does that the operator or a service can observe, in order.
    A [Fetch] carries the object the script serialises as the request body
    and the parsed response ([None]: the request or the reading of its body
    failed). *)
Inductive Event :=
| Fetch (e : Endpoint) (body : JsValue) (response : option JsValue)
| Alert (msg : string)
| Show (msg : string)
| Hide
| SetValue (text : string).

(** The services: the answer to a request, given everything that happened before. *)
Definition Remote := list Event -> Endpoint -> JsValue -> option JsValue.

(** An element of which the script uses the class list and the text. *)
Record Elem := mkElem { classes : list string; text : string }.

Definition class_add (c : string) (l : list string) : list string :=
  if existsb (String.eqb c) l then l else (l ++ [c])%list.

Definition class_remove (c : string) (l : list string) : list string :=
  filter (fun x => negb (x =? c)) l.

(** The input fields the workflows read.  [visionImageFile]: no file chosen,
    or a file whose reading fails ([Some None]) or yields a data URL. *)
Record Form := mkForm {
  filename : string;
  model : string;
  timeout : string;
  visionPrompt : string;
  visionImageUrl : string;
  visionImageFile : option (option string)
}.

(** The cross-check modal. *)
Record Panel := mkPanel {
  overallBadge : Elem;
  countPass : string;
  countFail : string;
  crossSummary : string;
  testList : list Html.Node;
  modalOverlay : option (list string)
}.

(** The state a workflow runs on.  [editor] is the text of the editing
    widget (SourceText), [edits] the text of the edits field, [notify] the
    status line (absent when the page has no such element). *)
Record World := mkWorld {
  form : Form;
  editor : string;
  edits : string;
  runout : string;
  notify : option Elem;
  panel : Panel;
  lastScreenshotBase64 : JsValue;
  log : list Event
}.

Definition set_editor (v : string) (w : World) : World :=
  mkWorld (form w) v (edits w) (runout w) (notify w) (panel w) (lastScreenshotBase64 w) (log w).

Definition set_edits (v : string) (w : World) : World :=
  mkWorld (form w) (editor w) v (runout w) (notify w) (panel w) (lastScreenshotBase64 w) (log w).

Definition set_runout (v : string) (w : World) : World :=
  mkWorld (form w) (editor w) (edits w) v (notify w) (panel w) (lastScreenshotBase64 w) (log w).

Definition set_notify (v : option Elem) (w : World) : World :=
  mkWorld (form w) (editor w) (edits w) (runout w) v (panel w) (lastScreenshotBase64 w) (log w).

Definition set_panel (v : Panel) (w : World) : World :=
  mkWorld (form w) (editor w) (edits w) (runout w) (notify w) v (lastScreenshotBase64 w) (log w).

Definition set_lastScreenshotBase64 (v : JsValue) (w : World) : World :=
  mkWorld (form w) (editor w) (edits w) (runout w) (notify w) (panel w) v (log w).

Definition record (e : Event) (w : World) : World :=
  mkWorld (form w) (editor w) (edits w) (runout w) (notify w) (panel w)
    (lastScreenshotBase64 w) (log w ++ [e])%list.

Definition set_overallBadge (v : Elem) (p : Panel) : Panel :=
  mkPanel v (countPass p) (countFail p) (crossSummary p) (testList p) (modalOverlay p).

Definition set_countPass (v : string) (p : Panel) : Panel :=
  mkPanel (overallBadge p) v (countFail p) (crossSummary p) (testList p) (modalOverlay p).

Definition set_countFail (v : string) (p : Panel) : Panel :=
  mkPanel (overallBadge p) (countPass p) v (crossSummary p) (testList p) (modalOverlay p).

Definition set_crossSummary (v : string) (p : Panel) : Panel :=
  mkPanel (overallBadge p) (countPass p) (countFail p) v (testList p) (modalOverlay p).

Definition set_testList (v : list Html.Node) (p : Panel) : Panel :=
  mkPanel (overallBadge p) (countPass p) (countFail p) (crossSummary p) v (modalOverlay p).

Definition set_modalOverlay (v : option (list string)) (p : Panel) : Panel :=
  mkPanel (overallBadge p) (countPass p) (countFail p) (crossSummary p) (testList p) v.

(** ** Computations: state and exceptions *)

Inductive Result (A : Type) :=
| Returned (a : A)
| Thrown (e : string).

Arguments Returned {A} a.
Arguments Thrown {A} e.

Definition M (A : Type) : Type := World -> Result A * World.

Definition ret {A} (a : A) : M A := fun w => (Returned a, w).

Definition throw {A} (e : string) : M A := fun w => (Thrown e, w).

Definition bind {A B} (m : M A) (k : A -> M B) : M B :=
  fun w =>
    match m w with
    | (Returned a, w') => k a w'
    | (Thrown e, w') => (Thrown e, w')
    end.

Notation "x <- m ;; k" := (bind m (fun x => k))
  (at level 61, m at next level, right associativity).
Notation "m ;;; k" := (bind m (fun _ => k))
  (at level 61, right associativity).

(** [try { body } catch (e) { handler }] *)
Definition try_catch {A} (body : M A) (handler : string -> M A) : M A :=
  fun w =>
    match body w with
    | (Thrown e, w') => handler e w'
    | r => r
    end.

(** [try { body } finally { cleanup }] *)
Definition try_finally {A} (body : M A) (cleanup : M unit) : M A :=
  fun w =>
    let (r, w') := body w in
    match cleanup w' with
    | (Returned _, w'') => (r, w'')
    | (Thrown e, w'') => (Thrown e, w'')
    end.

Definition read {A} (f : World -> A) : M A := fun w => (Returned (f w), w).

Definition update (f : World -> World) : M unit := fun w => (Returned tt, f w).

Definition when (b : bool) (m : M unit) : M unit := if b then m else ret tt.

(** [v.k]: a TypeError on [null] and [undefined]. *)
Definition member (v : JsValue) (k : string) : M JsValue :=
  if nullish v then throw "TypeError" else ret (get v k).

(** [v.toLowerCase()]: only strings have the method. *)
Definition call_toLowerCase (v : JsValue) : M string :=
  match v with
  | JStr s => ret (toLowerCase s)
  | _ => throw "TypeError"
  end.

Definition alert (msg : string) : M unit := update (record (Alert msg)).

(** [editor.getValue()] and [editor.setValue(v)].  The widget holds text: it
    rejects anything that is not a string. *)
Definition getValue : M string := read editor.

Definition setValue (v : JsValue) : M unit :=
  match v with
  | JStr s => update (fun w => record (SetValue s) (set_editor s w))
  | _ => throw "TypeError"
  end.

Definition showNotify (msg : string) : M unit :=
  fun w =>
    match notify w with
    | None => (Returned tt, w)
    | Some n =>
        (Returned tt,
         record (Show msg) (set_notify (Some (mkElem (class_remove "hidden" (classes n)) msg)) w))
    end.

Definition hideNotify : M unit :=
  fun w =>
    match notify w with
    | None => (Returned tt, w)
    | Some n =>
        (Returned tt,
         record Hide (set_notify (Some (mkElem (class_add "hidden" (classes n)) (text n))) w))
    end.

Definition openCrossModal : M unit :=
  update (fun w =>
    match modalOverlay (panel w) with
    | None => w
    | Some cl => set_panel (set_modalOverlay (Some (class_remove "hidden" cl)) (panel w)) w
    end).

Definition closeCrossModal : M unit :=
  update (fun w =>
    match modalOverlay (panel w) with
    | None => w
    | Some cl => set_panel (set_modalOverlay (Some (class_add "hidden" cl)) (panel w)) w
    end).

Definition resetToHello : M unit := setValue (JStr ("print('hello world')" ++ nl)).

(** ** The cross-check presenter *)

Definition escape_char (c : ascii) : string :=
  let n := code c in
  if (n =? 38)%nat then "&amp;"
  else if (n =? 60)%nat then "&lt;"
  else if (n =? 62)%nat then "&gt;"
  else if (n =? 34)%nat then "&quot;"
  else String c EmptyString.

(** The global [replace] of [escapeHtml]: ampersand, angle brackets and the
    double quote become their entities. *)
Fixpoint replace_markup (s : string) : string :=
  match s with
  | EmptyString => EmptyString
  | String c r => escape_char c ++ replace_markup r
  end.

Definition escapeHtml (str : JsValue) : string := replace_markup (to_string str).

(** The template literal assigned to [li.innerHTML]. *)
Definition test_markup (status : string) (t : JsValue) : string :=
  nl ++ "      <span class=" ++ dq ++ "dot " ++ status ++ dq ++ "></span>" ++
  nl ++ "      <span class=" ++ dq ++ "name" ++ dq ++ ">" ++
    escapeHtml (or_else (get t "name") (JStr "Test")) ++ "</span>" ++
  nl ++ "      <span class=" ++ dq ++ "desc" ++ dq ++ ">" ++
    escapeHtml (or_else (get t "description") (JStr "")) ++ "</span>" ++
  nl ++ "      <span class=" ++ dq ++ "reason" ++ dq ++ ">" ++
    escapeHtml (or_else (get t "reason") (JStr "")) ++ "</span>" ++
  nl ++ "    ".

Definition test_item (status : string) (t : JsValue) : Html.Node :=
  Html.Element "li" [("class", "test")] (Html.parse_fragment (test_markup status t)).

Definition appendChild (li : Html.Node) : M unit :=
  update (fun w => set_panel (set_testList (testList (panel w) ++ [li])%list (panel w)) w).

(** The loop [for (const t of tests)]. *)
Fixpoint render_tests (tests : list JsValue) : M unit :=
  match tests with
  | [] => ret tt
  | t :: rest =>
      st <- member t "status" ;;
      status <- call_toLowerCase (or_else st (JStr "fail")) ;;
      appendChild (test_item status t) ;;;
      render_tests rest
  end.

Definition renderCrosscheck (payload : JsValue) : M unit :=
  update (fun w => set_panel (set_testList [] (panel w)) w) ;;;
  update (fun w =>
    set_panel (set_overallBadge (mkElem ["badge"] (text (overallBadge (panel w)))) (panel w)) w) ;;;
  ov <- member payload "overall" ;;
  overall <- call_toLowerCase (or_else ov (JStr "mixed")) ;;
  update (fun w =>
    set_panel (set_overallBadge (mkElem (classes (overallBadge (panel w))) overall) (panel w)) w) ;;;
  update (fun w =>
    set_panel
      (set_overallBadge
         (mkElem
            (class_add (if overall =? "pass" then "pass"
                        else if overall =? "fail" then "fail" else "mixed")
               (classes (overallBadge (panel w))))
            (text (overallBadge (panel w))))
         (panel w)) w) ;;;
  let counts := or_else (get payload "counts") (JObj [("pass", JInt 0); ("fail", JInt 0)]) in
  update (fun w =>
    set_panel (set_countPass (to_string (or_else (get counts "pass") (JInt 0)) ++ " passed")
                 (panel w)) w) ;;;
  update (fun w =>
    set_panel (set_countFail (to_string (or_else (get counts "fail") (JInt 0)) ++ " failed")
                 (panel w)) w) ;;;
  update (fun w =>
    set_panel (set_crossSummary (to_string (or_else (get payload "summary") (JStr ""))) (panel w)) w) ;;;
  let tests := if isArray (get payload "tests") then get payload "tests" else JArr [] in
  render_tests (items_of tests) ;;;
  openCrossModal.

(** The report that [fixUsingCross] rebuilds from what the panel shows. *)
Definition read_label (cls : string) (kids : list Html.Node) : string :=
  match Html.querySelector cls kids with
  | Some n => trim (Html.textContent n)
  | None => EmptyString
  end.

Definition extract_test (li : Html.Node) : JsValue :=
  let kids := match li with
              | Html.Element _ _ k => k
              | Html.Text _ => []
              end in
  let status := match Html.querySelector "dot" kids with
                | Some dot => if Html.has_class "pass" dot then "pass" else "fail"
                | None => "fail"
                end in
  JObj [("name", JStr (read_label "name" kids));
        ("description", JStr (read_label "desc" kids));
        ("status", JStr status);
        ("reason", JStr (read_label "reason" kids))].

Definition extract (p : Panel) : JsValue :=
  let overall := trim (text (overallBadge p)) in
  let passTxt := trim (countPass p) in
  let failTxt := trim (countFail p) in
  let summary := trim (crossSummary p) in
  let tests := map extract_test (Html.querySelectorAll "test" (testList p)) in
  let counts := JObj [("pass", parseInt_or_0 passTxt); ("fail", parseInt_or_0 failTxt)] in
  JObj [("overall", JStr overall); ("summary", JStr summary);
        ("counts", counts); ("tests", JArr tests)].

(** ** The workflows

    One definition per asynchronous function of the script.  An [await] on
    [fetch] and on [res.json()] is one [fetch] here: either can reject, and
    the script does nothing between the two.  Runs do not interleave. *)

Section Workflows.

Variable remote : Remote.

Definition fetch (e : Endpoint) (body : JsValue) : M JsValue :=
  fun w =>
    let r := remote (log w) e body in
    match r with
    | Some v => (Returned v, record (Fetch e body r) w)
    | None => (Thrown "fetch failed", record (Fetch e body r) w)
    end.

Definition input (f : Form -> string) : M JsValue := read (fun w => JStr (f (form w))).

(** The tail shared by every chain: cross-check [code] and render a good answer. *)
Definition crosscheck_and_render (code model timeout : JsValue) : M unit :=
  data <- fetch ApiCrosscheck (JObj [("code", code); ("model", model); ("timeout", timeout)]) ;;
  ok <- member data "ok" ;;
  when (truthy ok) (renderCrosscheck data).

Definition analyze : M unit :=
  code <- getValue ;;
  filename <- input filename ;;
  model <- input model ;;
  timeout <- input timeout ;;
  showNotify "Analyzing… Debugger is analyzing the code" ;;;
  data <- fetch ApiAnalyze (JObj [("code", JStr code); ("filename", filename);
                                  ("model", model); ("timeout", timeout)]) ;;
  hideNotify ;;;
  ok <- member data "ok" ;;
  if negb (truthy ok) then alert ("Analyze error: " ++ to_string (get data "error"))
  else
    update (set_edits (Json.stringify_text (get data "result"))) ;;;
    let result := get data "result" in
    let edits := if truthy result && truthy (get result "edits")
                 then get result "edits" else JArr [] in
    if isArray edits && (0 <? List.length (items_of edits))%nat then
      showNotify "Applying fixes…" ;;;
      try_finally
        (try_catch
           (data2 <- fetch ApiApply (JObj [("code", JStr code); ("edits", edits)]) ;;
            ok2 <- member data2 "ok" ;;
            when (truthy ok2)
              (setValue (get data2 "code") ;;;
               showNotify "Cross-checking… validating with hidden tests" ;;;
               crosscheck_and_render (get data2 "code") model timeout))
           (fun _ => ret tt))
        hideNotify
    else
      showNotify "Cross-checking… validating with hidden tests" ;;;
      try_finally
        (try_catch (crosscheck_and_render (JStr code) model timeout) (fun _ => ret tt))
        hideNotify.

Definition applyFixes : M unit :=
  code <- getValue ;;
  text <- read edits ;;
  match Json.parse (if text =? "" then "{}" else text) with
  | None => alert "Invalid JSON in Edits."
  | Some parsed =>
      pe <- member parsed "edits" ;;
      let edits := or_else pe (JArr []) in
      data <- fetch ApiApply (JObj [("code", JStr code); ("edits", edits)]) ;;
      ok <- member data "ok" ;;
      if negb (truthy ok) then alert ("Apply error: " ++ to_string (get data "error"))
      else
        setValue (get data "code") ;;;
        model <- input model ;;
        timeout <- input timeout ;;
        showNotify "Cross-checking… validating with hidden tests" ;;;
        try_finally
          (try_catch (crosscheck_and_render (get data "code") model timeout) (fun _ => ret tt))
          hideNotify
  end.

Definition runCode : M unit :=
  code <- getValue ;;
  data <- fetch ApiRun (JObj [("code", JStr code)]) ;;
  ok <- member data "ok" ;;
  if negb (truthy ok)
  then update (set_runout ("Error: " ++ to_string (or_else (get data "error") (JStr "Unknown error"))))
  else update (set_runout
         ("Exit: " ++ to_string (get data "exitCode") ++ nl ++ nl ++
          "STDOUT:" ++ nl ++ to_string (get data "stdout") ++ nl ++ nl ++
          "STDERR:" ++ nl ++ to_string (get data "stderr"))).

Definition fixUsingCross : M unit :=
  cross <- read (fun w => extract (panel w)) ;;
  code <- getValue ;;
  model <- input model ;;
  timeout <- input timeout ;;
  showNotify "Fixing using cross-check…" ;;;
  try_finally
    (try_catch
       (data <- fetch ApiFixFromCrosscheck
                  (JObj [("code", JStr code); ("crosscheck", cross);
                         ("model", model); ("timeout", timeout)]) ;;
        ok <- member data "ok" ;;
        if negb (truthy ok)
        then alert ("Fix error: " ++ to_string (or_else (get data "error") (JStr "unknown")))
        else
          when (truthy (get data "code")) (setValue (get data "code")) ;;;
          when (truthy (get data "edits"))
            (update (set_edits (Json.stringify_text (get data "edits")))) ;;;
          showNotify "Cross-checking updated code…" ;;;
          code2 <- getValue ;;
          crosscheck_and_render (JStr code2) model timeout)
       (fun _ => ret tt))
    hideNotify.

(** [dataUrl.split(',')[1]] *)
Fixpoint until_comma (s : string) : string :=
  match s with
  | EmptyString => EmptyString
  | String c r => if (code c =? 44)%nat then EmptyString else String c (until_comma r)
  end.

Fixpoint second_piece (s : string) : JsValue :=
  match s with
  | EmptyString => JUndefined
  | String c r => if (code c =? 44)%nat then JStr (until_comma r) else second_piece r
  end.

Definition fileToBase64 (file : option string) : M JsValue :=
  match file with
  | Some dataUrl => ret (second_piece dataUrl)
  | None => throw "read error"
  end.

Definition analyzeWithVision : M unit :=
  code <- getValue ;;
  model <- input model ;;
  timeout <- input timeout ;;
  prompt <- input visionPrompt ;;
  imageUrl <- input visionImageUrl ;;
  file <- read (fun w => visionImageFile (form w)) ;;
  imageBase64 <- match file with
                 | Some f => fileToBase64 f
                 | None => ret JNull
                 end ;;
  showNotify "Vision analyzing… comparing image and code" ;;;
  try_finally
    (try_catch
       (data <- fetch ApiVisionAnalyze
                  (JObj [("code", JStr code); ("prompt", prompt); ("imageUrl", imageUrl);
                         ("imageBase64", imageBase64); ("model", model);
                         ("timeout", timeout)]) ;;
        ok <- member data "ok" ;;
        if negb (truthy ok)
        then alert ("Vision analyze error: " ++ to_string (or_else (get data "error") (JStr "unknown")))
        else
          when (truthy (get data "edits"))
            (update (set_edits (Json.stringify_text (get data "edits")))) ;;;
          when (truthy (get data "code")) (setValue (get data "code")) ;;;
          showNotify "Cross-checking (post-vision)…" ;;;
          code2 <- getValue ;;
          crosscheck_and_render (JStr code2) model timeout)
       (fun _ => ret tt))
    hideNotify.

(** The capture itself is the platform's: [frame] is the data URL of the
    grabbed frame, or the message of the error that the capture raised. *)
Definition captureScreenShot (frame : string + string) : M unit :=
  match frame with
  | inl dataUrl =>
      update (set_lastScreenshotBase64 (second_piece dataUrl)) ;;;
      showNotify "Screenshot captured."
  | inr message => alert ("Screenshot failed: " ++ message)
  end.

Definition visionSubmit : M unit :=
  code <- getValue ;;
  model <- input model ;;
  timeout <- input timeout ;;
  prompt <- input visionPrompt ;;
  imageBase64 <- read (fun w => or_else (lastScreenshotBase64 w) JNull) ;;
  runData <- fetch ApiRun (JObj [("code", JStr code)]) ;;
  runOk <- member runData "ok" ;;
  when (negb (truthy runOk))
    (showNotify ("Run error: " ++ to_string (or_else (get runData "error") (JStr "unknown")))) ;;;
  showNotify "Comparing UI with screenshot…" ;;;
  visData <- fetch ApiVisionAnalyze
               (JObj [("code", JStr code); ("prompt", prompt); ("imageBase64", imageBase64);
                      ("model", model); ("timeout", timeout)]) ;;
  visOk <- member visData "ok" ;;
  if negb (truthy visOk) then
    hideNotify ;;;
    alert ("Vision analyze error: " ++ to_string (or_else (get visData "error") (JStr "unknown")))
  else
    let container := get visData "edits" in
    (if truthy container && isArray (get container "edits")
        && truthy (get (get container "edits") "length")
     then
       update (set_edits (Json.stringify_text container)) ;;;
       applyData <- fetch ApiApply (JObj [("code", JStr code);
                                          ("edits", get container "edits")]) ;;
       applyOk <- member applyData "ok" ;;
       if truthy applyOk && truthy (get applyData "code") then
         setValue (get applyData "code") ;;;
         showNotify "Applied vision-based fixes."
       else
         when (negb (truthy applyOk))
           (alert ("Apply error: " ++ to_string (or_else (get applyData "error") (JStr "unknown"))))
     else showNotify "No changes suggested from vision.") ;;;
    hideNotify.

End Workflows.

(** ** Vocabulary of the properties *)

(** The children of an element that holds the text [s] and nothing else. *)
Definition text_node (s : string) : list Html.Node :=
  match s with
  | EmptyString => []
  | _ => [Html.Text s]
  end.

Definition gap6 : string := nl ++ "      ".
Definition gap4 : string := nl ++ "    ".

(** The tree of one displayed test: four spans separated by the white space
    of the template, each holding at most one text node. *)
Definition shown_test (status name desc reason : string) : list Html.Node :=
  [Html.Text gap6; Html.Element "span" [("class", "dot " ++ status)] [];
   Html.Text gap6; Html.Element "span" [("class", "name")] (text_node name);
   Html.Text gap6; Html.Element "span" [("class", "desc")] (text_node desc);
   Html.Text gap6; Html.Element "span" [("class", "reason")] (text_node reason);
   Html.Text gap4].

(** The literal pieces of the template around the status and the three
    escaped fields. *)
Definition piece_open : string := nl ++ "      <span class=" ++ dq ++ "dot ".

Definition piece_name : string :=
  dq ++ "></span>" ++ nl ++ "      <span class=" ++ dq ++ "name" ++ dq ++ ">".

Definition piece_desc : string :=
  "</span>" ++ nl ++ "      <span class=" ++ dq ++ "desc" ++ dq ++ ">".

Definition piece_reason : string :=
  "</span>" ++ nl ++ "      <span class=" ++ dq ++ "reason" ++ dq ++ ">".

Definition piece_end : string := "</span>" ++ nl ++ "    ".

Definition tokens_dot (status : string) : list Html.Token :=
  (Html.chars gap6 ++
   [Html.TStart "span" [("class", ("dot " ++ status)%string)]; Html.TEnd "span"] ++
   Html.chars gap6 ++ [Html.TStart "span" [("class", "name")]])%list.

(** Whether the character [c] occurs in [s]. *)
Fixpoint occurs (c : ascii) (s : string) : bool :=
  match s with
  | EmptyString => false
  | String x r => Ascii.eqb x c || occurs c r
  end.

(** Text appended to the current node, character by character; NUL is ignored. *)
Fixpoint add_text (f : Html.Frame) (s : string) : Html.Frame :=
  match s with
  | EmptyString => f
  | String c r => if (code c =? 0)%nat then add_text f r else add_text (Html.add_char f c) r
  end.

(** A string without its NUL characters. *)
Fixpoint drop_nul (s : string) : string :=
  match s with
  | EmptyString => EmptyString
  | String c r => if (code c =? 0)%nat then drop_nul r else String c (drop_nul r)
  end.

(** The text that the parser makes of [s] once [s] is escaped: line breaks
    normalised, NUL dropped. *)
Definition displayed (s : string) : string := drop_nul (Html.preprocess s).

(** Text that the parser hands back as it is: no carriage return, no NUL. *)
Definition parser_stable (s : string) : bool :=
  negb (occurs Html.cr s) && negb (occurs Html.nul s).

(** What the loop of [renderCrosscheck] appends for [tests], and how it ends:
    it stops at the first entry whose status cannot be read. *)
Fixpoint rendered_items (tests : list JsValue) : Result unit * list Html.Node :=
  match tests with
  | [] => (Returned tt, [])
  | t :: rest =>
      if nullish t then (Thrown "TypeError", [])
      else
        match or_else (get t "status") (JStr "fail") with
        | JStr s =>
            let (r, items) := rendered_items rest in
            (r, test_item (toLowerCase s) t :: items)
        | _ => (Thrown "TypeError", [])
        end
  end.

(** A label that the display hands back unchanged: text without leading or
    trailing white space. *)
Definition label (v : JsValue) : bool :=
  match v with
  | JStr s => trim s =? s
  | _ => false
  end.

Definition is_status (v : JsValue) : bool :=
  match v with
  | JStr s => (s =? "pass") || (s =? "fail")
  | _ => false
  end.

Definition is_overall (v : JsValue) : bool :=
  match v with
  | JStr s => (s =? "pass") || (s =? "fail") || (s =? "mixed")
  | _ => false
  end.

(** A TestOutcome with non-degenerate labels: a non-empty name, and name,
    description and reason free of surrounding white space. *)
Definition non_degenerate_test (t : JsValue) : bool :=
  match t with
  | JObj _ =>
      label (get t "name") && truthy (get t "name") && label (get t "description")
      && is_status (get t "status") && label (get t "reason")
  | _ => false
  end.

(** A CrossCheckReport of the data model with non-degenerate labels. *)
Definition non_degenerate (r : JsValue) : bool :=
  match r with
  | JObj _ =>
      is_overall (get r "overall") && label (get r "summary")
      && match get r "tests" with
         | JArr ts => forallb non_degenerate_test ts
         | _ => false
         end
  | _ => false
  end.

(** Labels that reach the display through markup (name, description,
    reason) and that the parser hands back as they are. *)
Definition stable_label (v : JsValue) : bool :=
  match v with
  | JStr s => parser_stable s
  | _ => false
  end.

Definition stable_test (t : JsValue) : bool :=
  stable_label (get t "name") && stable_label (get t "description")
  && stable_label (get t "reason").

Definition stable_labels (r : JsValue) : bool :=
  forallb stable_test (items_of (get r "tests")).

(** The four fields of a TestOutcome that the round trip keeps. *)
Definition outcome_fields (t : JsValue) : JsValue :=
  JObj [("name", get t "name"); ("description", get t "description");
        ("status", get t "status"); ("reason", get t "reason")].

(** [renderCrosscheck] in closed form: how it ends, and the panel it leaves.
    A payload whose fields cannot be read leaves the panel cleared, or
    cleared and partly filled. *)
Definition badge_class (overall : string) : string :=
  if overall =? "pass" then "pass" else if overall =? "fail" then "fail" else "mixed".

Definition cleared (p : Panel) : Panel :=
  mkPanel (mkElem ["badge"] (text (overallBadge p))) (countPass p) (countFail p)
    (crossSummary p) [] (modalOverlay p).

Definition payload_tests (payload : JsValue) : list JsValue :=
  items_of (if isArray (get payload "tests") then get payload "tests" else JArr []).

Definition payload_counts (payload : JsValue) : JsValue :=
  or_else (get payload "counts") (JObj [("pass", JInt 0); ("fail", JInt 0)]).

Definition render_result (payload : JsValue) : Result unit :=
  if nullish payload then Thrown "TypeError"
  else
    match or_else (get payload "overall") (JStr "mixed") with
    | JStr _ => fst (rendered_items (payload_tests payload))
    | _ => Thrown "TypeError"
    end.

Definition render_panel (payload : JsValue) (p : Panel) : Panel :=
  if nullish payload then cleared p
  else
    match or_else (get payload "overall") (JStr "mixed") with
    | JStr s =>
        let overall := toLowerCase s in
        mkPanel
          (mkElem (class_add (badge_class overall) ["badge"]) overall)
          (to_string (or_else (get (payload_counts payload) "pass") (JInt 0)) ++ " passed")
          (to_string (or_else (get (payload_counts payload) "fail") (JInt 0)) ++ " failed")
          (to_string (or_else (get payload "summary") (JStr "")))
          (snd (rendered_items (payload_tests payload)))
          (match fst (rendered_items (payload_tests payload)), modalOverlay p with
           | Returned _, Some cl => Some (class_remove "hidden" cl)
           | _, mo => mo
           end)
    | _ => cleared p
    end.

Definition span (cls : string) (kids : list Html.Node) : Html.Node :=
  Html.Element "span" [("class", cls)] kids.

(** The list entry of a well-formed TestOutcome, as a tree. *)
Definition shown_li (t : JsValue) : Html.Node :=
  Html.Element "li" [("class", "test")]
    (shown_test (to_string (get t "status")) (to_string (get t "name"))
       (to_string (get t "description")) (to_string (get t "reason"))).

(** The four characters that [escapeHtml] replaces. *)
Definition amp : ascii := ascii_of_nat 38.
Definition quot : ascii := ascii_of_nat 34.


(** A status that stays inside the class attribute it is written into: no
    double quote, no ampersand, no carriage return, no NUL. *)
Definition attr_safe (s : string) : bool :=
  negb (occurs quot s) && negb (occurs amp s) && parser_stable s.

(** ** Sample data *)

(** A page before any run: status line and modal hidden, nothing captured. *)
Definition sample_world : World :=
  mkWorld (mkForm "main.py" "gemini-2.5-pro" "30" "" "" None) "1/0" "" ""
    (Some (mkElem ["notify"; "hidden"] ""))
    (mkPanel (mkElem ["badge"] "") "" "" "" [] (Some ["overlay"; "hidden"]))
    JNull [].

Definition sample_test_1 : JsValue :=
  JObj [("name", JStr "t1"); ("description", JStr "adds <b>two</b> numbers");
        ("status", JStr "pass"); ("reason", JStr "")].

Definition sample_test_2 : JsValue :=
  JObj [("name", JStr "t2 & co"); ("description", JStr "");
        ("status", JStr "fail"); ("reason", JStr "expected 3 > 2")].

Definition sample_report : JsValue :=
  JObj [("ok", JBool true); ("overall", JStr "mixed");
        ("counts", JObj [("pass", JInt 1); ("fail", JInt 1)]);
        ("summary", JStr "1 of 2 tests failed");
        ("tests", JArr [sample_test_1; sample_test_2])].

(** A report with non-degenerate labels, of which a name holds a NUL and a
    reason a line break of two characters (CR LF). *)
Definition crlf_report : JsValue :=
  JObj [("ok", JBool true); ("overall", JStr "fail");
        ("counts", JObj [("pass", JInt 0); ("fail", JInt 1)]);
        ("summary", JStr "1 test failed");
        ("tests",
         JArr [JObj [("name", JStr ("t" ++ String Html.nul "1"));
                     ("description", JStr "");
                     ("status", JStr "fail");
                     ("reason",
                      JStr ("Traceback:" ++ String Html.cr (String Html.lf "ZeroDivisionError")))]])].




(** ** Vocabulary of the workflow properties *)

(** The events a run adds to the log. *)
Definition run_events (m : M unit) (w : World) : list Event :=
  skipn (List.length (log w)) (log (snd (m w))).

(** The remote calls among some events, in order: endpoint and request body. *)
Definition calls (evs : list Event) : list (Endpoint * JsValue) :=
  flat_map (fun e => match e with
                     | Fetch ep body _ => [(ep, body)]
                     | _ => []
                     end) evs.

(** The Edit sequence in the answer of the analysis service: the elements of
    [result.edits], none when the field is absent or is not an array. *)
Definition edit_sequence (data : JsValue) : list JsValue :=
  items_of (get (get data "result") "edits").


(** A response that arrived and carries a true [ok] flag. *)
Definition response_ok (r : option JsValue) : bool :=
  match r with
  | Some d => truthy (get d "ok")
  | None => false
  end.

(** The status line exists and is not hidden. *)
Definition status_visible (w : World) : bool :=
  match notify w with
  | Some n => negb (existsb (String.eqb "hidden") (classes n))
  | None => false
  end.

Definition is_text (v : JsValue) (s : string) : bool :=
  match v with
  | JStr t => t =? s
  | _ => false
  end.

Definition crosschecks (s : string) (e : Event) : bool :=
  match e with
  | Fetch ApiCrosscheck body _ => is_text (get body "code") s
  | _ => false
  end.

(** Every replacement of the editor text is followed, later in the same run,
    by a cross-check call on exactly that text. *)
Fixpoint rechecked (evs : list Event) : bool :=
  match evs with
  | [] => true
  | SetValue s :: rest => existsb (crosschecks s) rest && rechecked rest
  | _ :: rest => rechecked rest
  end.

(** Text that is valid structured data for an Edit sequence: a mapping with
    an [edits] field that is a sequence. *)
Definition valid_edits_text (text : string) : bool :=
  match Json.parse text with
  | Some (JObj fields) => isArray (lookup "edits" fields)
  | _ => false
  end.

Definition crosscheck_body (code : string) (w : World) : JsValue :=
  JObj [("code", JStr code); ("model", JStr (model (form w)));
        ("timeout", JStr (timeout (form w)))].

(** What a run did after its call of the edit-application service. *)
Fixpoint after_apply (evs : list Event) : list Event :=
  match evs with
  | [] => []
  | Fetch ApiApply _ _ :: rest => rest
  | _ :: rest => after_apply rest
  end.

Definition analyze_body (w : World) : JsValue :=
  JObj [("code", JStr (editor w)); ("filename", JStr (filename (form w)));
        ("model", JStr (model (form w))); ("timeout", JStr (timeout (form w)))].

(** Services for the sample runs: an analysis without edits, then a cross-check. *)
Definition answer_no_edits : JsValue :=
  JObj [("ok", JBool true); ("result", JObj [("edits", JArr [])])].

Definition remote_no_edits : Remote :=
  fun _ e _ =>
    match e with
    | ApiAnalyze => Some answer_no_edits
    | ApiCrosscheck => Some sample_report
    | _ => None
    end.

(** The page after [showNotify(msg)] and after [hideNotify()]. *)
Definition shown (msg : string) (w : World) : World := snd (showNotify msg w).
Definition hidden (w : World) : World := snd (hideNotify w).

(** The message of the last [Show] among some events. *)
Fixpoint last_shown (evs : list Event) : option string :=
  match evs with
  | [] => None
  | Show msg :: rest =>
      match last_shown rest with
      | Some m => Some m
      | None => Some msg
      end
  | _ :: rest => last_shown rest
  end.

Definition vision_body (w : World) : JsValue :=
  JObj [("code", JStr (editor w)); ("prompt", JStr (visionPrompt (form w)));
        ("imageBase64", or_else (lastScreenshotBase64 w) JNull);
        ("model", JStr (model (form w))); ("timeout", JStr (timeout (form w)))].

Definition run_body (w : World) : JsValue := JObj [("code", JStr (editor w))].

(** Services of the sample runs. *)

(** Every request fails on the network. *)
Definition remote_down : Remote := fun _ _ _ => None.

(** The execution service is unreachable, the others answer. *)
Definition remote_run_down : Remote :=
  fun _ e _ =>
    match e with
    | ApiRun => None
    | _ => Some (JObj [("ok", JBool true)])
    end.

Definition one_edit : JsValue := JObj [("line", JInt 1); ("text", JStr "print(1)")].

(** Analysis and vision propose one edit, the applier returns fixed code,
    the cross-check answers [sample_report]. *)
Definition remote_fix : Remote :=
  fun _ e _ =>
    match e with
    | ApiAnalyze => Some (JObj [("ok", JBool true); ("result", JObj [("edits", JArr [one_edit])])])
    | ApiApply => Some (JObj [("ok", JBool true); ("code", JStr "print(1)")])
    | ApiCrosscheck => Some sample_report
    | ApiRun => Some (JObj [("ok", JBool false); ("error", JStr "ZeroDivisionError")])
    | ApiFixFromCrosscheck => Some (JObj [("ok", JBool true); ("code", JStr "print(2)")])
    | ApiVisionAnalyze =>
        Some (JObj [("ok", JBool true); ("edits", JObj [("edits", JArr [one_edit])])])
    end.

(** As [remote_fix], with a cross-checker that is unreachable. *)
Definition remote_fix_unchecked : Remote :=
  fun h e b =>
    match e with
    | ApiCrosscheck => None
    | _ => remote_fix h e b
    end.


Definition with_edits (text : string) (w : World) : World := set_edits text w.

(** ** Vocabulary of the further properties *)

(** The request of [fixUsingCross]: the editor text, the report read back
    from the panel, and the two settings. *)
Definition fix_body (w : World) : JsValue :=
  JObj [("code", JStr (editor w)); ("crosscheck", extract (panel w));
        ("model", JStr (model (form w))); ("timeout", JStr (timeout (form w)))].

(** The modal exists and is not hidden. *)
Definition modal_open (w : World) : bool :=
  match modalOverlay (panel w) with
  | Some cl => negb (existsb (String.eqb "hidden") cl)
  | None => false
  end.

(** The messages of the alert boxes among some events, in order. *)
Definition alerts (evs : list Event) : list string :=
  flat_map (fun e => match e with
                     | Alert msg => [msg]
                     | _ => []
                     end) evs.

(** The comma, at which a data URL is split. *)
Definition comma : ascii := ascii_of_nat 44.

(** The answer of a service that refuses, with its reason. *)
Definition refusal (reason : string) : JsValue :=
  JObj [("ok", JBool false); ("error", JStr reason)].

(** Analysis proposes one edit and the applier refuses it. *)
Definition remote_apply_refused : Remote :=
  fun h e b =>
    match e with
    | ApiApply => Some (refusal "bad edit")
    | _ => remote_fix h e b
    end.



(** The classes of the status line. *)
Definition status_classes (w : World) : list string :=
  match notify w with
  | Some n => classes n
  | None => []
  end.

(** The text that the status line displays. *)
Definition status_text (w : World) : option string := option_map text (notify w).

(** The page after [openCrossModal()] and after [closeCrossModal()]. *)
Definition opened (w : World) : World := snd (openCrossModal w).
Definition closed (w : World) : World := snd (closeCrossModal w).

(** A report whose test entries are [tests]. *)
Definition report_of (overall : string) (tests : list JsValue) : JsValue :=
  JObj [("ok", JBool true); ("overall", JStr overall); ("tests", JArr tests)].

(** The value of a run of decimal digits, continued from [acc]. *)
Fixpoint uint_value (acc : Z) (d : Decimal.uint) : Z :=
  match d with
  | Decimal.Nil => acc
  | Decimal.D0 l => uint_value (acc * 10) l
  | Decimal.D1 l => uint_value (acc * 10 + 1) l
  | Decimal.D2 l => uint_value (acc * 10 + 2) l
  | Decimal.D3 l => uint_value (acc * 10 + 3) l
  | Decimal.D4 l => uint_value (acc * 10 + 4) l
  | Decimal.D5 l => uint_value (acc * 10 + 5) l
  | Decimal.D6 l => uint_value (acc * 10 + 6) l
  | Decimal.D7 l => uint_value (acc * 10 + 7) l
  | Decimal.D8 l => uint_value (acc * 10 + 8) l
  | Decimal.D9 l => uint_value (acc * 10 + 9) l
  end.

Definition is_string (v : JsValue) : bool :=
  match v with
  | JStr _ => true
  | _ => false
  end.

(** A test entry that the rendering loop cannot read: [null] or
    [undefined], or one whose status is truthy and is not text. *)
Definition unreadable (t : JsValue) : bool :=
  nullish t || (truthy (get t "status") && negb (is_string (get t "status"))).



(** An integer that a JavaScript number holds exactly. *)
Definition safe_integer (z : Z) : bool := (Z.abs z <? 2 ^ 53)%Z.

(** Text that ends with an ASCII character other than white space. *)
Fixpoint ends_plain (s : string) : bool :=
  match s with
  | EmptyString => false
  | String c EmptyString => (code c <? 128)%nat && negb (is_space c)
  | String _ r => ends_plain r
  end.
(** * Properties *)

Lemma append_assoc (a b c : string) : (a ++ b) ++ c = a ++ (b ++ c).
Proof. induction a as [|x a IH]; simpl; [reflexivity | now rewrite IH]. Qed.

Lemma append_nil_r (a : string) : a ++ "" = a.
Proof. induction a as [|x a IH]; simpl; [reflexivity | now rewrite IH]. Qed.


Module HtmlFacts.
Import Html.

Lemma run_app (a b : string) : forall st,
  run st (a ++ b) =
  (fst (run st a) ++ fst (run (snd (run st a)) b), snd (run (snd (run st a)) b))%list.
Proof.
  induction a as [|c a IH]; intros st; simpl.
  - now destruct (run st b).
  - destruct (step st c) as [ts st']. rewrite IH.
    destruct (run st' a) as [ta sa]; simpl.
    destruct (run sa b) as [tb sb]; simpl.
    now rewrite app_assoc.
Qed.

Lemma run_escape_char (c : ascii) : run Data (escape_char c) = ([TChar c], Data).
Proof. destruct c as [[] [] [] [] [] [] [] []]; reflexivity. Qed.

Lemma run_replace_markup (s : string) : run Data (replace_markup s) = (chars s, Data).
Proof.
  induction s as [|c s IH]; simpl; [reflexivity|].
  rewrite run_app, run_escape_char; simpl. now rewrite IH.
Qed.

(** *** Preprocessing *)

Lemma is_cr (c : ascii) : (code c =? 13)%nat = Ascii.eqb c cr.
Proof. destruct c as [[] [] [] [] [] [] [] []]; reflexivity. Qed.

Lemma is_nul (c : ascii) : (code c =? 0)%nat = Ascii.eqb c nul.
Proof. destruct c as [[] [] [] [] [] [] [] []]; reflexivity. Qed.

Lemma preprocess_clean_app (a b : string) :
  occurs cr a = false -> preprocess (a ++ b) = a ++ preprocess b.
Proof.
  induction a as [|c a IH]; [reflexivity|]. cbn [occurs]. intros H.
  apply orb_false_iff in H. destruct H as [Hc Ha].
  change (String c a ++ b) with (String c (a ++ b)). cbn [preprocess].
  rewrite is_cr, Hc, (IH Ha). reflexivity.
Qed.

Lemma preprocess_clean (a : string) : occurs cr a = false -> preprocess a = a.
Proof.
  intros H. rewrite <- (append_nil_r a) at 1.
  rewrite (preprocess_clean_app a "" H). apply append_nil_r.
Qed.

(** Preprocessing goes through a place where no line feed follows. *)
Lemma preprocess_app (a b : string) :
  match b with String d _ => (code d =? 10)%nat | EmptyString => false end = false ->
  preprocess (a ++ b) = preprocess a ++ preprocess b.
Proof.
  intros Hb. induction a as [|c a IH]; [reflexivity|].
  change (String c a ++ b) with (String c (a ++ b)).
  change (preprocess (String c (a ++ b)))
    with (if (code c =? 13)%nat
          then match a ++ b with
               | String d _ => if (code d =? 10)%nat then preprocess (a ++ b)
                               else String lf (preprocess (a ++ b))
               | EmptyString => String lf EmptyString
               end
          else String c (preprocess (a ++ b))).
  change (preprocess (String c a))
    with (if (code c =? 13)%nat
          then match a with
               | String d _ => if (code d =? 10)%nat then preprocess a
                               else String lf (preprocess a)
               | EmptyString => String lf EmptyString
               end
          else String c (preprocess a)).
  destruct (code c =? 13)%nat.
  - destruct a as [|d a].
    + change ("" ++ b) with b. destruct b as [|d b]; [reflexivity|].
      rewrite Hb. reflexivity.
    + change (String d a ++ b) with (String d (a ++ b)) in *. cbv beta iota.
      destruct (code d =? 10)%nat eqn:Hd; rewrite IH; reflexivity.
  - now rewrite IH.
Qed.

Lemma escape_char_cr (c : ascii) : (code c =? 13)%nat = true -> escape_char c = String c "".
Proof. destruct c as [[] [] [] [] [] [] [] []]; intros H; try discriminate H; reflexivity. Qed.

Lemma escape_char_lf (c : ascii) : (code c =? 10)%nat = true -> escape_char c = String c "".
Proof. destruct c as [[] [] [] [] [] [] [] []]; intros H; try discriminate H; reflexivity. Qed.

Lemma escape_char_head (c : ascii) :
  (code c =? 13)%nat = false ->
  occurs cr (escape_char c) = false.
Proof. destruct c as [[] [] [] [] [] [] [] []]; intros H; try discriminate H; reflexivity. Qed.

Lemma escape_char_no_lf (c : ascii) (r : string) :
  (code c =? 10)%nat = false ->
  match escape_char c ++ r with String d _ => (code d =? 10)%nat | EmptyString => false end
  = false.
Proof. destruct c as [[] [] [] [] [] [] [] []]; intros H; try discriminate H; reflexivity. Qed.

Lemma preprocess_cr (c : ascii) (r : string) :
  (code c =? 13)%nat = true ->
  preprocess (String c r)
  = match r with
    | String d _ => if (code d =? 10)%nat then preprocess r else String lf (preprocess r)
    | EmptyString => String lf EmptyString
    end.
Proof. intros H. cbn [preprocess]. now rewrite H. Qed.

Lemma preprocess_cr_other (c : ascii) (r : string) :
  (code c =? 13)%nat = true ->
  match r with String d _ => (code d =? 10)%nat | EmptyString => false end = false ->
  preprocess (String c r) = String lf (preprocess r).
Proof.
  intros H Hr. rewrite (preprocess_cr c r H). destruct r as [|d r]; [reflexivity|].
  now rewrite Hr.
Qed.

Lemma preprocess_cr_lf (c d : ascii) (r : string) :
  (code c =? 13)%nat = true -> (code d =? 10)%nat = true ->
  preprocess (String c (String d r)) = preprocess (String d r).
Proof. intros H Hd. rewrite (preprocess_cr c _ H). now rewrite Hd. Qed.

Lemma preprocess_other (c : ascii) (r : string) :
  (code c =? 13)%nat = false -> preprocess (String c r) = String c (preprocess r).
Proof. intros H. cbn [preprocess]. now rewrite H. Qed.

Lemma replace_markup_lf (r : string) : replace_markup (String lf r) = String lf (replace_markup r).
Proof. reflexivity. Qed.

(** Escaping and preprocessing commute: the escapes hold no line break. *)
Lemma preprocess_replace_markup (s : string) :
  preprocess (replace_markup s) = replace_markup (preprocess s).
Proof.
  induction s as [|c s IH]; [reflexivity|].
  change (replace_markup (String c s)) with (escape_char c ++ replace_markup s).
  destruct (code c =? 13)%nat eqn:Hc.
  - rewrite (escape_char_cr c Hc).
    change (String c "" ++ replace_markup s) with (String c (replace_markup s)).
    destruct s as [|d s]; [now rewrite !(preprocess_cr c _ Hc)|].
    change (replace_markup (String d s)) with (escape_char d ++ replace_markup s) in *.
    destruct (code d =? 10)%nat eqn:Hd.
    + rewrite (escape_char_lf d Hd) in *.
      change (String d "" ++ replace_markup s) with (String d (replace_markup s)) in *.
      now rewrite !(preprocess_cr_lf c d _ Hc Hd).
    + rewrite (preprocess_cr_other c _ Hc (escape_char_no_lf d (replace_markup s) Hd)).
      rewrite (preprocess_cr_other c (String d s) Hc Hd), replace_markup_lf.
      now rewrite IH.
  - rewrite (preprocess_clean_app _ _ (escape_char_head c Hc)), IH.
    now rewrite (preprocess_other c s Hc).
Qed.

(** *** Text *)

Lemma build_chars (s : string) : forall stack cur rest,
  build stack cur (chars s ++ rest) = build stack (add_text cur s) rest.
Proof.
  induction s as [|c s IH]; intros; simpl; [reflexivity|].
  destruct (code c =? 0)%nat; apply IH.
Qed.

Lemma add_text_onto (s : string) : forall tag a t kids,
  add_text (mkFrame tag a (Text t :: kids)) s = mkFrame tag a (Text (t ++ drop_nul s) :: kids).
Proof.
  induction s as [|c s IH]; intros; simpl.
  - now rewrite append_nil_r.
  - destruct (code c =? 0)%nat; [apply IH|].
    unfold add_char; simpl. rewrite IH. unfold snoc. now rewrite append_assoc.
Qed.

Lemma add_text_new (s : string) tag a kids :
  match kids with Text _ :: _ => False | _ => True end ->
  add_text (mkFrame tag a kids) s = mkFrame tag a (text_node (drop_nul s) ++ kids)%list.
Proof.
  intros H. induction s as [|c s IH]; [reflexivity|].
  simpl. destruct (code c =? 0)%nat; [exact IH|].
  unfold add_char; simpl.
  destruct kids as [|[] ?]; try contradiction; now rewrite add_text_onto.
Qed.

Lemma drop_nul_clean (s : string) : occurs nul s = false -> drop_nul s = s.
Proof.
  induction s as [|c s IH]; [reflexivity|]. cbn [occurs drop_nul]. intros H.
  apply orb_false_iff in H. destruct H as [Hc Hs]. now rewrite is_nul, Hc, IH.
Qed.

Lemma displayed_stable (s : string) : parser_stable s = true -> displayed s = s.
Proof.
  unfold parser_stable, displayed. intros H. apply andb_true_iff in H. destruct H as [Hc Hn].
  apply negb_true_iff in Hc, Hn. now rewrite preprocess_clean, drop_nul_clean.
Qed.

(** *** Tokens of the template *)

Lemma run_app_eq (a b : string) st ta sa :
  run st a = (ta, sa) ->
  run st (a ++ b) = ((ta ++ fst (run sa b))%list, snd (run sa b)).
Proof. intros H. now rewrite run_app, H. Qed.

Lemma tokens_of_app (a b : string) ta :
  run Data a = (ta, Data) -> tokens_of (a ++ b) = (ta ++ tokens_of b)%list.
Proof.
  intros H. unfold tokens_of. rewrite (run_app_eq a b Data ta Data H).
  destruct (run Data b) as [tb sb]; simpl. now rewrite app_assoc.
Qed.

Lemma tokens_of_escaped (s b : string) :
  tokens_of (replace_markup s ++ b) = (chars s ++ tokens_of b)%list.
Proof. apply tokens_of_app, run_replace_markup. Qed.

Lemma test_markup_pieces (status : string) (t : JsValue) :
  test_markup status t =
  piece_open ++ status ++ piece_name ++
  escapeHtml (or_else (get t "name") (JStr "Test")) ++
  piece_desc ++ escapeHtml (or_else (get t "description") (JStr "")) ++
  piece_reason ++ escapeHtml (or_else (get t "reason") (JStr "")) ++ piece_end.
Proof. reflexivity. Qed.

Lemma replaced_plain (c : ascii) : Ascii.eqb c nul = false -> replaced c = String c "".
Proof. unfold replaced. rewrite is_nul. now intros ->. Qed.

(** Inside a double-quoted attribute value, a safe status is taken as it is. *)
Lemma run_attr_value (s : string) : forall (t : Tag) (k v : string),
  attr_safe s = true ->
  run (AttrValue DoubleQuoted t k v) s = ([], AttrValue DoubleQuoted t k (v ++ s)).
Proof.
  induction s as [|c s IH]; intros t k v H.
  - now rewrite append_nil_r.
  - unfold attr_safe, parser_stable in H. cbn [occurs] in H.
    rewrite !negb_orb in H.
    apply andb_true_iff in H as [H1 H4].
    apply andb_true_iff in H1 as [H1 H2]. apply andb_true_iff in H4 as [H3 H4].
    apply andb_true_iff in H1 as [Hq Hqs]. apply andb_true_iff in H2 as [Ha Has].
    apply andb_true_iff in H3 as [Hc Hcs]. apply andb_true_iff in H4 as [Hn Hns].
    apply negb_true_iff in Hq, Ha, Hn.
    cbn [run step]. unfold step_attr_value.
    assert (E1 : (code c =? 38)%nat = false).
    { revert Ha. clear. destruct c as [[] [] [] [] [] [] [] []]; intros H;
        try discriminate H; reflexivity. }
    assert (E2 : (code c =? 34)%nat = false).
    { revert Hq. clear. destruct c as [[] [] [] [] [] [] [] []]; intros H;
        try discriminate H; reflexivity. }
    rewrite E1, E2, (replaced_plain c Hn).
    rewrite IH.
    + now rewrite append_assoc.
    + unfold attr_safe, parser_stable. now rewrite Hqs, Has, Hcs, Hns.
Qed.

Lemma run_piece_open :
  run Data piece_open = (chars gap6, AttrValue DoubleQuoted (mkTag false "span" []) "class" "dot ").
Proof. vm_compute; reflexivity. Qed.

Lemma run_piece_name (v : string) :
  run (AttrValue DoubleQuoted (mkTag false "span" []) "class" v) piece_name
  = (([TStart "span" [("class", v)]; TEnd "span"] ++ chars gap6
      ++ [TStart "span" [("class", "name")]])%list, Data).
Proof. vm_compute; reflexivity. Qed.

Lemma run_piece_dot (status : string) :
  attr_safe status = true ->
  run Data (piece_open ++ status ++ piece_name) = (tokens_dot status, Data).
Proof.
  intros Hs. rewrite (run_app_eq _ _ _ _ _ run_piece_open).
  rewrite (run_app_eq _ _ _ _ _ (run_attr_value status _ _ _ Hs)).
  rewrite run_piece_name. reflexivity.
Qed.

Lemma run_piece_desc :
  run Data piece_desc = ((TEnd "span" :: chars gap6 ++ [TStart "span" [("class", "desc")]])%list, Data).
Proof. vm_compute; reflexivity. Qed.

Lemma run_piece_reason :
  run Data piece_reason = ((TEnd "span" :: chars gap6 ++ [TStart "span" [("class", "reason")]])%list, Data).
Proof. vm_compute; reflexivity. Qed.

Lemma tokens_of_piece_end : tokens_of piece_end = (TEnd "span" :: chars gap4)%list.
Proof. vm_compute; reflexivity. Qed.

Lemma attr_safe_no_cr (s : string) : attr_safe s = true -> occurs cr s = false.
Proof.
  unfold attr_safe, parser_stable. intros H.
  apply andb_true_iff in H as [_ H]. apply andb_true_iff in H as [Hc _].
  now apply negb_true_iff in Hc.
Qed.

(** The template after preprocessing: only the three fields can change. *)
Lemma preprocess_test_markup (status n d r : string) :
  attr_safe status = true ->
  preprocess (piece_open ++ status ++ piece_name ++ replace_markup n ++
              piece_desc ++ replace_markup d ++ piece_reason ++ replace_markup r ++ piece_end)
  = (piece_open ++ status ++ piece_name) ++ replace_markup (preprocess n) ++
    piece_desc ++ replace_markup (preprocess d) ++ piece_reason ++
    replace_markup (preprocess r) ++ piece_end.
Proof.
  intros Hs.
  rewrite (preprocess_clean_app piece_open _ eq_refl).
  rewrite (preprocess_clean_app status _ (attr_safe_no_cr status Hs)).
  rewrite (preprocess_clean_app piece_name _ eq_refl).
  rewrite (preprocess_app (replace_markup n)) by reflexivity.
  rewrite (preprocess_clean_app piece_desc _ eq_refl).
  rewrite (preprocess_app (replace_markup d)) by reflexivity.
  rewrite (preprocess_clean_app piece_reason _ eq_refl).
  rewrite (preprocess_app (replace_markup r)) by reflexivity.
  rewrite (preprocess_clean piece_end eq_refl).
  rewrite !preprocess_replace_markup, !append_assoc. reflexivity.
Qed.

Lemma rev_text_node (s : string) : rev (text_node s) = text_node s.
Proof. now destruct s. Qed.

Lemma build_span (s : string) a stack cur rest :
  build stack cur (TStart "span" a :: chars s ++ TEnd "span" :: rest) =
  build stack (add_node cur (Element "span" a (text_node (drop_nul s)))) rest.
Proof.
  change (build stack cur (TStart "span" a :: chars s ++ TEnd "span" :: rest))
    with (build (cur :: stack) (mkFrame "span" a []) (chars s ++ TEnd "span" :: rest)).
  rewrite build_chars, (add_text_new s "span" a [] I), app_nil_r.
  cbn [build existsb ftag]. change ("span" =? "span") with true.
  cbn [orb close_to ftag]. change ("span" =? "span") with true.
  cbv iota. unfold element_of; cbn [ftag fattrs fkids]. now rewrite rev_text_node.
Qed.

Lemma build_gap (g : string) tag a e k c kids stack rest :
  occurs nul g = false ->
  build stack (mkFrame tag a (Element e k c :: kids)) (chars g ++ rest) =
  build stack (mkFrame tag a (text_node g ++ Element e k c :: kids)%list) rest.
Proof. intros H. now rewrite build_chars, add_text_new, (drop_nul_clean g H). Qed.

(** The tree of a list entry: the four spans of the template, whatever the
    name, the description and the reason hold. *)
Lemma parse_test_markup (status : string) (t : JsValue) :
  attr_safe status = true ->
  parse_fragment (test_markup status t) =
  shown_test status
    (displayed (to_string (or_else (get t "name") (JStr "Test"))))
    (displayed (to_string (or_else (get t "description") (JStr ""))))
    (displayed (to_string (or_else (get t "reason") (JStr "")))).
Proof.
  intros Hs. unfold parse_fragment, tokenize. rewrite (test_markup_pieces status t).
  unfold escapeHtml, displayed.
  set (n := to_string _). set (d := to_string _). set (r := to_string _).
  rewrite (preprocess_test_markup status n d r Hs).
  rewrite (tokens_of_app _ _ _ (run_piece_dot status Hs)), tokens_of_escaped.
  rewrite (tokens_of_app _ _ _ run_piece_desc), tokens_of_escaped.
  rewrite (tokens_of_app _ _ _ run_piece_reason), tokens_of_escaped.
  rewrite tokens_of_piece_end.
  unfold tokens_dot, root.
  repeat (rewrite <- ?app_assoc, <- ?app_comm_cons; cbn [app]).
  rewrite build_chars, (add_text_new gap6 _ _ [] I).
  change (drop_nul gap6) with gap6.
  change (TStart "span" [("class", "dot " ++ status)] :: TEnd "span" :: ?x)
    with (TStart "span" [("class", "dot " ++ status)] :: (chars "" ++ TEnd "span" :: x)%list).
  rewrite build_span. unfold add_node; cbn [ftag fattrs fkids].
  rewrite build_gap, build_span by reflexivity. unfold add_node; cbn [ftag fattrs fkids].
  rewrite build_gap, build_span by reflexivity. unfold add_node; cbn [ftag fattrs fkids].
  rewrite build_gap, build_span by reflexivity. unfold add_node; cbn [ftag fattrs fkids].
  rewrite <- (app_nil_r (chars gap4)), build_gap by reflexivity.
  reflexivity.
Qed.


End HtmlFacts.
(** ** The presenter *)

Module PresenterFacts.
Import Html HtmlFacts.

Lemma world_eta (w : World) :
  mkWorld (form w) (editor w) (edits w) (runout w) (notify w) (panel w)
    (lastScreenshotBase64 w) (log w) = w.
Proof. now destruct w. Qed.

Lemma panel_eta (p : Panel) :
  mkPanel (overallBadge p) (countPass p) (countFail p) (crossSummary p) (testList p)
    (modalOverlay p) = p.
Proof. now destruct p. Qed.

Lemma render_tests_eq (ts : list JsValue) : forall w,
  render_tests ts w =
  (fst (rendered_items ts),
   set_panel (set_testList (testList (panel w) ++ snd (rendered_items ts))%list (panel w)) w).
Proof.
  induction ts as [|t ts IH]; intros w; simpl.
  - unfold ret, set_panel, set_testList; simpl. rewrite app_nil_r.
    now rewrite panel_eta, world_eta.
  - unfold bind, member. destruct (nullish t).
    + unfold throw, set_panel, set_testList; simpl. rewrite app_nil_r.
      now rewrite panel_eta, world_eta.
    + unfold ret. destruct (or_else (get t "status") (JStr "fail")); simpl;
        try (unfold throw, set_panel, set_testList; simpl; rewrite app_nil_r;
             now rewrite panel_eta, world_eta).
      unfold appendChild, update. rewrite IH.
      destruct (rendered_items ts) as [r items]; simpl.
      unfold set_panel, set_testList; simpl. now rewrite <- app_assoc.
Qed.

#[local] Arguments to_string : simpl never.
#[local] Arguments get : simpl never.
#[local] Arguments or_else : simpl never.
#[local] Arguments toLowerCase : simpl never.
#[local] Arguments class_add : simpl never.
#[local] Arguments class_remove : simpl never.
#[local] Arguments rendered_items : simpl never.
#[local] Arguments String.append : simpl never.

Lemma renderCrosscheck_eq (payload : JsValue) (w : World) :
  renderCrosscheck payload w = (render_result payload, set_panel (render_panel payload (panel w)) w).
Proof.
  destruct w as [f ed edt ro nt [b cp cf cs tl mo] ls lg].
  unfold renderCrosscheck, render_result, render_panel, bind, update, member, openCrossModal.
  cbn [panel set_panel set_testList set_overallBadge overallBadge text classes].
  destruct (nullish payload); [reflexivity|].
  unfold ret.
  destruct (or_else (get payload "overall") (JStr "mixed")); try reflexivity.
  cbn [call_toLowerCase ret].
  cbn [panel set_panel set_testList set_overallBadge set_countPass set_countFail set_crossSummary
       overallBadge text classes countPass countFail crossSummary testList modalOverlay
       form editor edits runout notify lastScreenshotBase64 log].
  rewrite render_tests_eq. unfold payload_tests, payload_counts.
  destruct (rendered_items _) as [[[]|e] items];
  cbn [fst snd panel set_panel set_testList set_overallBadge set_countPass set_countFail
       set_crossSummary set_modalOverlay
       overallBadge text classes countPass countFail crossSummary testList modalOverlay
       form editor edits runout notify lastScreenshotBase64 log app].
  - destruct mo; reflexivity.
  - destruct mo; reflexivity.
Qed.

Lemma class_remove_idem (c : string) (l : list string) :
  class_remove c (class_remove c l) = class_remove c l.
Proof.
  unfold class_remove. induction l as [|x l IH]; simpl; [reflexivity|].
  destruct (x =? c) eqn:E; simpl; [assumption|]. rewrite E; simpl. now rewrite IH.
Qed.

Lemma render_panel_idem (payload : JsValue) (p : Panel) :
  render_panel payload (render_panel payload p) = render_panel payload p.
Proof.
  unfold render_panel. destruct (nullish payload); [reflexivity|].
  destruct (or_else (get payload "overall") (JStr "mixed")); try reflexivity.
  cbn [modalOverlay]. f_equal.
  destruct (fst (rendered_items (payload_tests payload))); [|reflexivity].
  destruct (modalOverlay p); [|reflexivity]. now rewrite class_remove_idem.
Qed.

Lemma render_panel_tests (payload : JsValue) (p q : Panel) :
  testList (render_panel payload p) = testList (render_panel payload q).
Proof.
  unfold render_panel. destruct (nullish payload); [reflexivity|].
  now destruct (or_else (get payload "overall") (JStr "mixed")).
Qed.





End PresenterFacts.

Module RoundTripFacts.
Import Html HtmlFacts PresenterFacts.
#[local] Arguments trim : simpl never.


Lemma descendants_shown (status n d r : string) :
  descendants (shown_test status n d r) =
  [span ("dot " ++ status) []; span "name" (text_node n); span "desc" (text_node d);
   span "reason" (text_node r)].
Proof. destruct n, d, r; reflexivity. Qed.

Lemma textContent_span (cls s : string) : textContent (span cls (text_node s)) = s.
Proof. destruct s as [|c s]; [reflexivity|]. simpl. now rewrite append_nil_r. Qed.

Lemma has_class_span (c cls : string) (kids : list Node) :
  has_class c (span cls kids) = existsb (String.eqb c) (tokens EmptyString cls).
Proof. reflexivity. Qed.

Ltac eval_classes :=
  repeat match goal with
  | |- context [existsb (String.eqb ?c) (tokens EmptyString ?cls)] =>
      let v := eval vm_compute in (existsb (String.eqb c) (tokens EmptyString cls)) in
      change (existsb (String.eqb c) (tokens EmptyString cls)) with v
  end; cbv iota.

Lemma extract_test_shown (status n d r : string) :
  status = "pass" \/ status = "fail" ->
  extract_test (Element "li" [("class", "test")] (shown_test status n d r)) =
  JObj [("name", JStr (trim n)); ("description", JStr (trim d));
        ("status", JStr status); ("reason", JStr (trim r))].
Proof.
  intros Hs. unfold extract_test, read_label, querySelector, querySelectorAll.
  rewrite descendants_shown.
  destruct Hs; subst status; cbn [filter]; rewrite !has_class_span;
  eval_classes; cbn [hd_error]; rewrite ?textContent_span, ?has_class_span;
  eval_classes; reflexivity.
Qed.

Lemma select_tests (status n d r : string) (rest : list Node) :
  status = "pass" \/ status = "fail" ->
  querySelectorAll "test" (Element "li" [("class", "test")] (shown_test status n d r) :: rest) =
  Element "li" [("class", "test")] (shown_test status n d r) :: querySelectorAll "test" rest.
Proof.
  intros Hs. unfold querySelectorAll.
  change (descendants (?x :: rest)) with (subtree x ++ descendants rest)%list.
  rewrite filter_app. f_equal.
  change (subtree (Element "li" [("class", "test")] (shown_test status n d r)))
    with (Element "li" [("class", "test")] (shown_test status n d r)
            :: descendants (shown_test status n d r)).
  rewrite descendants_shown. cbn [filter].
  change (has_class "test" (Element "li" [("class", "test")] ?k)) with true.
  destruct Hs; subst status; rewrite !has_class_span; eval_classes; reflexivity.
Qed.

Lemma label_inv (v : JsValue) :
  label v = true -> exists s, v = JStr s /\ trim s = s.
Proof.
  destruct v; simpl; try discriminate. intros H. exists s. split; [reflexivity|].
  now apply String.eqb_eq.
Qed.

Lemma is_status_inv (v : JsValue) :
  is_status v = true -> exists s, v = JStr s /\ (s = "pass" \/ s = "fail").
Proof.
  destruct v; simpl; try discriminate. intros H. exists s. split; [reflexivity|].
  apply orb_true_iff in H. destruct H as [H|H]; apply String.eqb_eq in H; auto.
Qed.

Lemma or_else_label (s d : string) :
  (s = EmptyString -> d = EmptyString) ->
  to_string (or_else (JStr s) (JStr d)) = s.
Proof.
  intros H. unfold or_else; simpl. destruct s; simpl; [now rewrite H | reflexivity].
Qed.

Lemma stable_label_inv (v : JsValue) (s : string) :
  v = JStr s -> stable_label v = true -> displayed s = s.
Proof. intros -> H. now apply displayed_stable. Qed.

Lemma status_attr_safe (st : string) : st = "pass" \/ st = "fail" -> attr_safe st = true.
Proof. now intros [-> | ->]. Qed.

Lemma test_item_wf (t : JsValue) :
  non_degenerate_test t = true ->
  stable_test t = true ->
  nullish t = false
  /\ or_else (get t "status") (JStr "fail") = JStr (to_string (get t "status"))
  /\ toLowerCase (to_string (get t "status")) = to_string (get t "status")
  /\ test_item (to_string (get t "status")) t = shown_li t
  /\ extract_test (shown_li t) = outcome_fields t
  /\ (forall rest, querySelectorAll "test" (shown_li t :: rest)
                   = shown_li t :: querySelectorAll "test" rest).
Proof.
  unfold non_degenerate_test, stable_test. destruct t; try discriminate. intros H S.
  repeat (apply andb_true_iff in H; destruct H as [H ?]).
  apply andb_true_iff in S as [S Sr]. apply andb_true_iff in S as [Sn Sd].
  destruct (label_inv _ H) as (n & En & Tn).
  destruct (label_inv _ H2) as (d & Ed & Td).
  destruct (label_inv _ H0) as (r & Er & Tr).
  destruct (is_status_inv _ H1) as (st & Est & Hst).
  pose proof (stable_label_inv _ _ En Sn) as Dn.
  pose proof (stable_label_inv _ _ Ed Sd) as Dd.
  pose proof (stable_label_inv _ _ Er Sr) as Dr.
  assert (Hn : n <> EmptyString).
  { rewrite En in H3. simpl in H3. intros ->. discriminate. }
  unfold shown_li, outcome_fields, test_item.
  rewrite parse_test_markup by (rewrite Est; simpl; now apply status_attr_safe).
  rewrite En, Ed, Er, Est. cbn [to_string].
  rewrite !or_else_label by (try reflexivity; intros; contradiction).
  rewrite Dn, Dd, Dr.
  split; [reflexivity|]. split; [now destruct Hst; subst st|].
  split; [now destruct Hst; subst st|]. split; [reflexivity|].
  split.
  - rewrite extract_test_shown by exact Hst. now rewrite Tn, Td, Tr.
  - intros rest. now apply select_tests.
Qed.

Lemma rendered_items_wf (ts : list JsValue) :
  forallb non_degenerate_test ts = true ->
  forallb stable_test ts = true ->
  rendered_items ts = (Returned tt, map shown_li ts).
Proof.
  induction ts as [|t ts IH]; [reflexivity|]. cbn [forallb map rendered_items]. intros H S.
  apply andb_true_iff in H. destruct H as [Ht Hts].
  apply andb_true_iff in S. destruct S as [St Sts].
  destruct (test_item_wf t Ht St) as (N & S1 & S2 & S3 & _).
  now rewrite N, S1, S2, S3, (IH Hts Sts).
Qed.

Lemma extract_tests_wf (ts : list JsValue) :
  forallb non_degenerate_test ts = true ->
  forallb stable_test ts = true ->
  map extract_test (querySelectorAll "test" (map shown_li ts)) = map outcome_fields ts.
Proof.
  induction ts as [|t ts IH]; [reflexivity|]. cbn [forallb map]. intros H S.
  apply andb_true_iff in H. destruct H as [Ht Hts].
  apply andb_true_iff in S. destruct S as [St Sts].
  destruct (test_item_wf t Ht St) as (_ & _ & _ & _ & E & Q).
  rewrite Q. cbn [map]. now rewrite E, (IH Hts Sts).
Qed.

Lemma is_overall_inv (v : JsValue) :
  is_overall v = true ->
  exists s, v = JStr s /\ (s = "pass" \/ s = "fail" \/ s = "mixed").
Proof.
  destruct v; simpl; try discriminate. intros H. exists s. split; [reflexivity|].
  apply orb_true_iff in H. destruct H as [H|H].
  - apply orb_true_iff in H. destruct H as [H|H]; apply String.eqb_eq in H; auto.
  - apply String.eqb_eq in H; auto.
Qed.

End RoundTripFacts.

(** C8.  Rendering is idempotent: rendering a report a second time, right
    after rendering it, ends the same way and leaves the whole page exactly
    as the first rendering left it; and the test entries shown after a
    rendering depend on the report alone, never on what was shown before. *)
Theorem render_idempotent (payload : JsValue) :
  (forall w, renderCrosscheck payload (snd (renderCrosscheck payload w))
             = renderCrosscheck payload w)
  /\ (forall w1 w2,
        testList (panel (snd (renderCrosscheck payload w1)))
        = testList (panel (snd (renderCrosscheck payload w2)))).
Proof.
  split; intros.
  - rewrite !PresenterFacts.renderCrosscheck_eq. cbn [snd]. f_equal.
    destruct w; unfold set_panel; cbn [panel form editor edits runout notify
      lastScreenshotBase64 log].
    now rewrite PresenterFacts.render_panel_idem.
  - rewrite !PresenterFacts.renderCrosscheck_eq.
    destruct w1, w2; unfold set_panel; cbn [snd panel].
    apply PresenterFacts.render_panel_tests.
Qed.

(** C3, as the code has it.  Round trip of the presenter.  For every
    CrossCheckReport with non-degenerate labels (overall one of pass, fail,
    mixed; statuses pass or fail; names non-empty; summary, names,
    descriptions and reasons without surrounding white space) whose names,
    descriptions and reasons hold no carriage return and no NUL, rendering
    it succeeds and the report that [extract] then reads back from the
    panel has the same overall, the same summary and, test by test and in
    order, the same name, description, status and reason.  Counts are not
    part of the statement. *)
Theorem extract_render_roundtrip (r : JsValue) (w : World) :
  non_degenerate r = true ->
  stable_labels r = true ->
  let shown := renderCrosscheck r w in
  let back := extract (panel (snd shown)) in
  fst shown = Returned tt
  /\ get back "overall" = get r "overall"
  /\ get back "summary" = get r "summary"
  /\ get back "tests" = JArr (map outcome_fields (items_of (get r "tests"))).
Proof.
  intros H S shown back. subst back shown.
  rewrite PresenterFacts.renderCrosscheck_eq. cbn [fst snd].
  unfold non_degenerate in H. destruct r as [| | | | | |fields]; try discriminate.
  apply andb_true_iff in H. destruct H as [H Ht].
  apply andb_true_iff in H. destruct H as [Ho Hs].
  destruct (RoundTripFacts.is_overall_inv _ Ho) as (o & Eo & Co).
  destruct (RoundTripFacts.label_inv _ Hs) as (s & Es & Ts).
  unfold stable_labels in S.
  destruct (get (JObj fields) "tests") as [| | | | |ts|] eqn:Et; try discriminate.
  cbn [items_of] in S.
  assert (Hor : or_else (get (JObj fields) "overall") (JStr "mixed") = JStr o).
  { rewrite Eo. now destruct Co as [->|[->| ->]]. }
  assert (Hlow : toLowerCase o = o) by now destruct Co as [->|[->| ->]].
  assert (Htrim : trim o = o) by now destruct Co as [->|[->| ->]].
  unfold render_result, render_panel, payload_tests.
  rewrite Hor, Et. cbn [nullish isArray items_of].
  rewrite (RoundTripFacts.rendered_items_wf ts Ht S). cbn [fst snd].
  destruct w; unfold set_panel; cbn [panel].
  unfold extract.
  cbn [overallBadge text crossSummary testList].
  rewrite Hlow, Htrim, Es, RoundTripFacts.or_else_label by reflexivity.
  rewrite Ts, (RoundTripFacts.extract_tests_wf ts Ht S), Eo.
  repeat split; reflexivity.
Qed.

Lemma extract_render_roundtrip_witness :
  non_degenerate sample_report = true
  /\ stable_labels sample_report = true
  /\ fst (renderCrosscheck sample_report sample_world) = Returned tt
  /\ get (extract (panel (snd (renderCrosscheck sample_report sample_world)))) "overall"
     = get sample_report "overall"
  /\ get (extract (panel (snd (renderCrosscheck sample_report sample_world)))) "summary"
     = get sample_report "summary"
  /\ get (extract (panel (snd (renderCrosscheck sample_report sample_world)))) "tests"
     = JArr (map outcome_fields (items_of (get sample_report "tests"))).
Proof.
  split; [reflexivity|]. split; [reflexivity|].
  exact (extract_render_roundtrip sample_report sample_world eq_refl eq_refl).
Defined.

(** C3 as stated fails: the labels of [crlf_report] are non-degenerate, and
    the report read back after rendering has another name and another
    reason: the parser of the markup has dropped the NUL of the name and
    made one line feed of the CR LF of the reason. *)
Lemma line_breaks_are_not_reproduced :
  non_degenerate crlf_report = true
  /\ fst (renderCrosscheck crlf_report sample_world) = Returned tt
  /\ get (extract (panel (snd (renderCrosscheck crlf_report sample_world)))) "tests"
     = JArr [JObj [("name", JStr "t1"); ("description", JStr ""); ("status", JStr "fail");
                   ("reason", JStr ("Traceback:" ++ nl ++ "ZeroDivisionError"))]]
  /\ get (extract (panel (snd (renderCrosscheck crlf_report sample_world)))) "tests"
     <> JArr (map outcome_fields (items_of (get crlf_report "tests"))).
Proof.
  split; [vm_compute; reflexivity|]. split; [vm_compute; reflexivity|].
  split; [vm_compute; reflexivity|]. vm_compute. discriminate.
Qed.



(** ** The workflows

    Runs are followed step by step: every lemma below rewrites one statement
    at the head of a computation into what it leaves to run. *)

Module Steps.

Lemma bind_bind {A B C} (m : M A) (k : A -> M B) (h : B -> M C) (w : World) :
  bind (bind m k) h w = bind m (fun a => bind (k a) h) w.
Proof. unfold bind. destruct (m w) as [[a|e] w']; reflexivity. Qed.

Lemma bind_ret {A B} (a : A) (k : A -> M B) (w : World) : bind (ret a) k w = k a w.
Proof. reflexivity. Qed.

Lemma bind_throw {A B} (e : string) (k : A -> M B) (w : World) :
  bind (throw e) k w = (Thrown e, w).
Proof. reflexivity. Qed.

Lemma bind_getValue {B} (k : string -> M B) (w : World) : bind getValue k w = k (editor w) w.
Proof. reflexivity. Qed.

Lemma bind_input {B} (f : Form -> string) (k : JsValue -> M B) (w : World) :
  bind (input f) k w = k (JStr (f (form w))) w.
Proof. reflexivity. Qed.

Lemma bind_read {A B} (f : World -> A) (k : A -> M B) (w : World) :
  bind (read f) k w = k (f w) w.
Proof. reflexivity. Qed.

Lemma bind_update {B} (f : World -> World) (k : unit -> M B) (w : World) :
  bind (update f) k w = k tt (f w).
Proof. reflexivity. Qed.

Lemma bind_alert {B} (msg : string) (k : unit -> M B) (w : World) :
  bind (alert msg) k w = k tt (record (Alert msg) w).
Proof. reflexivity. Qed.

Lemma bind_showNotify {B} (msg : string) (k : unit -> M B) (w : World) :
  bind (showNotify msg) k w = k tt (shown msg w).
Proof. unfold bind, shown, showNotify. now destruct (notify w). Qed.

Lemma bind_hideNotify {B} (k : unit -> M B) (w : World) :
  bind hideNotify k w = k tt (hidden w).
Proof. unfold bind, hidden, hideNotify. now destruct (notify w). Qed.

Lemma bind_fetch {B} (remote : Remote) (e : Endpoint) (b : JsValue) (k : JsValue -> M B)
    (w : World) :
  bind (fetch remote e b) k w =
  match remote (log w) e b with
  | Some v => k v (record (Fetch e b (Some v)) w)
  | None => (Thrown "fetch failed", record (Fetch e b None) w)
  end.
Proof. unfold bind, fetch. now destruct (remote (log w) e b). Qed.

Lemma bind_member {B} (v : JsValue) (key : string) (k : JsValue -> M B) (w : World) :
  bind (member v key) k w = if nullish v then (Thrown "TypeError", w) else k (get v key) w.
Proof. unfold bind, member. now destruct (nullish v). Qed.

Lemma bind_setValue {B} (v : JsValue) (k : unit -> M B) (w : World) :
  bind (setValue v) k w =
  match v with
  | JStr s => k tt (record (SetValue s) (set_editor s w))
  | _ => (Thrown "TypeError", w)
  end.
Proof. now destruct v. Qed.

Lemma alert_run (msg : string) (w : World) : alert msg w = (Returned tt, record (Alert msg) w).
Proof. reflexivity. Qed.

Lemma showNotify_run (msg : string) (w : World) : showNotify msg w = (Returned tt, shown msg w).
Proof. unfold shown, showNotify. now destruct (notify w). Qed.

Lemma hideNotify_run (w : World) : hideNotify w = (Returned tt, hidden w).
Proof. unfold hidden, hideNotify. now destruct (notify w). Qed.

Lemma ret_run {A} (a : A) (w : World) : ret a w = (Returned a, w).
Proof. reflexivity. Qed.

Lemma update_run (f : World -> World) (w : World) : update f w = (Returned tt, f w).
Proof. reflexivity. Qed.

Lemma setValue_run (v : JsValue) (w : World) :
  setValue v w =
  match v with
  | JStr s => (Returned tt, record (SetValue s) (set_editor s w))
  | _ => (Thrown "TypeError", w)
  end.
Proof. now destruct v. Qed.

Lemma when_run (b : bool) (m : M unit) (w : World) :
  when b m w = if b then m w else (Returned tt, w).
Proof. now destruct b. Qed.

Lemma bind_when {B} (b : bool) (m : M unit) (k : unit -> M B) (w : World) :
  bind (when b m) k w = if b then bind m k w else k tt w.
Proof. now destruct b. Qed.

(** [try { body } catch (e) {} finally { hideNotify(); }] never throws and
    ends with the status line hidden. *)
Lemma guarded_run (body : M unit) (w : World) :
  try_finally (try_catch body (fun _ => ret tt)) hideNotify w
  = (Returned tt, hidden (snd (body w))).
Proof.
  unfold try_finally, try_catch, hidden, hideNotify, ret.
  destruct (body w) as [[[]|e] w']; cbn [snd]; now destruct (notify w').
Qed.

Lemma snd_pair {A B} (a : A) (b : B) : snd (a, b) = b.
Proof. reflexivity. Qed.

Lemma fst_pair {A B} (a : A) (b : B) : fst (a, b) = a.
Proof. reflexivity. Qed.

End Steps.

Module Orchestration.
#[local] Arguments to_string : simpl never.
#[local] Arguments toLowerCase : simpl never.
#[local] Arguments class_add : simpl never.
#[local] Arguments class_remove : simpl never.
#[local] Arguments String.append : simpl never.
#[local] Arguments Json.stringify_text : simpl never.
#[local] Arguments Json.parse : simpl never.
#[local] Arguments renderCrosscheck : simpl never.
#[local] Arguments render_panel : simpl never.
#[local] Arguments render_result : simpl never.
#[local] Arguments extract : simpl never.
#[local] Arguments skipn : simpl never.

Lemma skipn_exact {A} (l x : list A) : skipn (List.length l) (l ++ x) = x.
Proof. induction l; simpl; auto. Qed.

Lemma truthy_get_nullish (v : JsValue) (k : string) :
  truthy (get v k) = true -> nullish v = false.
Proof. now destruct v. Qed.

Lemma ltb_length {A} (l : list A) :
  (0 <? List.length l)%nat = match l with [] => false | _ :: _ => true end.
Proof. now destruct l. Qed.


Lemma hidden_in_class_add (l : list string) :
  existsb (String.eqb "hidden") (class_add "hidden" l) = true.
Proof.
  unfold class_add. destruct (existsb (String.eqb "hidden") l) eqn:H; [exact H|].
  rewrite existsb_app. cbn. apply orb_true_r.
Qed.

Lemma hidden_not_in_class_remove (l : list string) :
  existsb (String.eqb "hidden") (class_remove "hidden" l) = false.
Proof.
  unfold class_remove. induction l as [|x l IH]; [reflexivity|]. cbn [filter].
  destruct (x =? "hidden") eqn:H; cbn [negb]; [exact IH|].
  cbn [existsb]. rewrite IH, String.eqb_sym, H. reflexivity.
Qed.

Lemma hidden_is_hidden (w : World) : status_visible (hidden w) = false.
Proof.
  unfold status_visible, hidden, hideNotify. destruct (notify w) as [n|] eqn:H.
  - cbn [snd record set_notify notify classes]. now rewrite hidden_in_class_add.
  - cbn [snd]. now rewrite H.
Qed.

(** Case analysis on the innermost undecided test of a condition. *)
Ltac case_on c :=
  lazymatch c with
  | context [if ?d then _ else _] => case_on d
  | negb ?x => case_on x
  | andb ?a _ => case_on a
  | orb ?a _ => case_on a
  | _ => destruct c eqn:?
  end.

Ltac tidy E := cbn [isArray items_of List.length negb andb orb fst snd] in E.

(** One statement at the head of the run in [E : out = program world]. *)
Ltac step E :=
  lazymatch type of E with
  | _ = bind (bind _ _) _ _ => rewrite Steps.bind_bind in E
  | _ = bind getValue _ _ => rewrite Steps.bind_getValue in E
  | _ = bind (input _) _ _ => rewrite Steps.bind_input in E
  | _ = bind (read _) _ _ => rewrite Steps.bind_read in E
  | _ = bind (update _) _ _ => rewrite Steps.bind_update in E
  | _ = bind (alert _) _ _ => rewrite Steps.bind_alert in E
  | _ = bind (showNotify _) _ _ => rewrite Steps.bind_showNotify in E
  | _ = bind hideNotify _ _ => rewrite Steps.bind_hideNotify in E
  | _ = bind (ret _) _ _ => rewrite Steps.bind_ret in E
  | _ = bind (fetch ?r ?e ?b) _ ?w =>
      rewrite Steps.bind_fetch in E; destruct (r (log w) e b) eqn:?
  | _ = bind (member ?v _) _ _ => rewrite Steps.bind_member in E; destruct (nullish v) eqn:?
  | _ = bind (setValue ?v) _ _ => rewrite Steps.bind_setValue in E; destruct v eqn:?
  | _ = bind (when ?b _) _ _ => rewrite Steps.bind_when in E; case_on b
  | _ = bind (if ?c then _ else _) _ _ => case_on c
  | _ = bind (match ?x with Some _ => _ | None => _ end) _ _ => destruct x eqn:?
  | _ = (if ?c then _ else _) _ => case_on c
  | _ = (if ?c then _ else _) => case_on c
  | _ = (match Json.parse ?t with Some _ => _ | None => _ end) _ =>
      destruct (Json.parse t) eqn:?
  | _ = bind (throw _) _ _ => rewrite Steps.bind_throw in E
  | _ = bind (fileToBase64 _) _ _ => unfold fileToBase64 in E
  | _ = when ?b _ _ => rewrite Steps.when_run in E; case_on b
  | _ = alert _ _ => rewrite Steps.alert_run in E
  | _ = showNotify _ _ => rewrite Steps.showNotify_run in E
  | _ = hideNotify _ => rewrite Steps.hideNotify_run in E
  | _ = setValue ?v _ => rewrite Steps.setValue_run in E; destruct v eqn:?
  | _ = update _ _ => rewrite Steps.update_run in E
  | _ = ret _ _ => rewrite Steps.ret_run in E
  | _ = renderCrosscheck _ _ => rewrite PresenterFacts.renderCrosscheck_eq in E
  end; tidy E.

(** The whole run; a guarded block is run on its own and put back. *)
Ltac steps E :=
  unfold crosscheck_and_render in E;
  repeat first
    [ step E
    | lazymatch type of E with
      | _ = try_finally (try_catch _ _) hideNotify _ =>
          rewrite Steps.guarded_run in E;
          lazymatch type of E with
          | _ = (_, hidden (snd ?b)) =>
              let I := fresh "inner" in
              let EI := fresh "E" in
              remember b as I eqn:EI; steps EI; subst I; tidy E
          end
      end ].

(** What is left when the run has ended: the page as a record, the events. *)
Ltac finish := subst; unfold shown, hidden; cbn.

(** The hypotheses on what the run observed, case by case. *)
Ltac observe :=
  rewrite <- ?app_assoc; rewrite ?skipn_exact, ?skipn_all; cbn;
  intros;
  repeat match goal with
  | H : _ \/ _ |- _ => destruct H
  | H : False |- _ => contradiction
  | H : @eq Event _ _ |- _ => first [discriminate H | injection H; intros; subst; clear H]
  end.

(** C5.  Whenever the analysis call of [analyze] succeeds ([ok] true) and
    its answer carries no Edit sequence (absent, empty, or not an array),
    the run makes exactly two remote calls: the analysis call and a
    cross-check call whose code is the editor text as it was when the run
    started.  The edit-application service is never called. *)
Theorem analyze_without_edits (remote : Remote) (w : World) (body data : JsValue) :
  In (Fetch ApiAnalyze body (Some data)) (run_events (analyze remote) w) ->
  truthy (get data "ok") = true ->
  edit_sequence data = [] ->
  calls (run_events (analyze remote) w)
  = [(ApiAnalyze, body); (ApiCrosscheck, crosscheck_body (editor w) w)].
Proof.
  destruct w as [f ed edt ro nt p ls lg]. unfold crosscheck_body, edit_sequence, run_events.
  intros HI Hok Hno. pose proof (truthy_get_nullish _ _ Hok) as Hn.
  revert HI.
  remember (analyze remote _) as out eqn:E. unfold analyze in E.
  destruct nt as [n|]; steps E; finish; observe; try reflexivity; try congruence;
    try (rewrite Hno in *; discriminate);
    try match goal with H : (0 <? 0)%nat = true |- _ => discriminate H end.
Qed.

Lemma analyze_without_edits_witness :
  calls (run_events (analyze remote_no_edits) sample_world)
  = [(ApiAnalyze, analyze_body sample_world);
     (ApiCrosscheck, crosscheck_body "1/0" sample_world)].
Proof.
  apply (analyze_without_edits remote_no_edits sample_world
           (analyze_body sample_world) answer_no_edits).
  - vm_compute. right. left. reflexivity.
  - reflexivity.
  - reflexivity.
Defined.

(** C4.  In [analyze] and in [applyFixes]: whenever the call of the
    edit-application service succeeds ([ok] true) and returns the text
    [text], that call was made with the editor text of the start of the run
    and exactly one remote call follows it: a cross-check whose code is
    [text], the returned text. *)
Theorem crosscheck_gets_applied_text (remote : Remote) (w : World) (run : M unit)
    (body data : JsValue) (text : string) :
  run = analyze remote \/ run = applyFixes remote ->
  In (Fetch ApiApply body (Some data)) (run_events run w) ->
  truthy (get data "ok") = true ->
  get data "code" = JStr text ->
  get body "code" = JStr (editor w)
  /\ calls (after_apply (run_events run w)) = [(ApiCrosscheck, crosscheck_body text w)].
Proof.
  destruct w as [f ed edt ro nt p ls lg]. unfold crosscheck_body, run_events.
  intros Hrun HI Hok Hcode. pose proof (truthy_get_nullish _ _ Hok) as Hn.
  revert HI. destruct Hrun; subst run.
  - remember (analyze remote _) as out eqn:E. unfold analyze in E.
    destruct nt as [n|]; steps E; finish; observe; try (split; [reflexivity|]);
      try congruence.
  - remember (applyFixes remote _) as out eqn:E. unfold applyFixes in E.
    destruct nt as [n|]; steps E; finish; observe; try (split; [reflexivity|]);
      try congruence.
Qed.

Lemma crosscheck_gets_applied_text_witness :
  calls (after_apply (run_events (analyze remote_fix) sample_world))
  = [(ApiCrosscheck, crosscheck_body "print(1)" sample_world)].
Proof.
  refine (proj2 (crosscheck_gets_applied_text remote_fix sample_world (analyze remote_fix)
            (JObj [("code", JStr "1/0"); ("edits", JArr [one_edit])])
            (JObj [("ok", JBool true); ("code", JStr "print(1)")])
            "print(1)" (or_introl eq_refl) _ eq_refl eq_refl)).
  vm_compute. repeat (first [left; reflexivity | right]).
Defined.

(** C7.  In [analyze] and in [applyFixes]: when the edit-application call
    succeeded and returned [text], and the cross-check call then failed (no
    response, or a response without a true [ok]), the run still ends
    normally, the editor holds [text], the cross-check panel is exactly as
    it was before the run, and the status line is hidden. *)
Theorem crosscheck_failure_is_not_fatal (remote : Remote) (w : World) (run : M unit)
    (body data cbody : JsValue) (text : string) (r : option JsValue) :
  run = analyze remote \/ run = applyFixes remote ->
  In (Fetch ApiApply body (Some data)) (run_events run w) ->
  truthy (get data "ok") = true ->
  get data "code" = JStr text ->
  In (Fetch ApiCrosscheck cbody r) (run_events run w) ->
  response_ok r = false ->
  fst (run w) = Returned tt
  /\ editor (snd (run w)) = text
  /\ panel (snd (run w)) = panel w
  /\ status_visible (snd (run w)) = false.
Proof.
  destruct w as [f ed edt ro nt p ls lg]. unfold run_events, status_visible, response_ok.
  intros Hrun HI Hok Hcode HC Hr. pose proof (truthy_get_nullish _ _ Hok) as Hn.
  revert HI HC. destruct Hrun; subst run.
  - remember (analyze remote _) as out eqn:E. unfold analyze in E.
    destruct nt as [n|]; steps E; finish; observe; rewrite ?hidden_in_class_add;
      try (repeat split; congruence).
  - remember (applyFixes remote _) as out eqn:E. unfold applyFixes in E.
    destruct nt as [n|]; steps E; finish; observe; rewrite ?hidden_in_class_add;
      try (repeat split; congruence).
Qed.

Lemma crosscheck_failure_is_not_fatal_witness :
  fst (analyze remote_fix_unchecked sample_world) = Returned tt
  /\ editor (snd (analyze remote_fix_unchecked sample_world)) = "print(1)"
  /\ panel (snd (analyze remote_fix_unchecked sample_world)) = panel sample_world
  /\ status_visible (snd (analyze remote_fix_unchecked sample_world)) = false.
Proof.
  refine (crosscheck_failure_is_not_fatal remote_fix_unchecked sample_world
            (analyze remote_fix_unchecked)
            (JObj [("code", JStr "1/0"); ("edits", JArr [one_edit])])
            (JObj [("ok", JBool true); ("code", JStr "print(1)")])
            (crosscheck_body "print(1)" sample_world) "print(1)" None
            (or_introl eq_refl) _ eq_refl eq_refl _ eq_refl).
  - vm_compute. repeat (first [left; reflexivity | right]).
  - vm_compute. repeat (first [left; reflexivity | right]).
Defined.

Lemma analyze_rechecked (remote : Remote) (w : World) :
  rechecked (run_events (analyze remote) w) = true.
Proof.
  destruct w as [f ed edt ro nt p ls lg]. unfold run_events.
  remember (analyze remote _) as out eqn:E. unfold analyze in E.
  destruct nt as [n|]; steps E; finish; observe; rewrite ?String.eqb_refl; reflexivity.
Qed.

Lemma applyFixes_rechecked (remote : Remote) (w : World) :
  rechecked (run_events (applyFixes remote) w) = true.
Proof.
  destruct w as [f ed edt ro nt p ls lg]. unfold run_events.
  remember (applyFixes remote _) as out eqn:E. unfold applyFixes in E.
  destruct nt as [n|]; steps E; finish; observe; rewrite ?String.eqb_refl; reflexivity.
Qed.

Lemma fixUsingCross_rechecked (remote : Remote) (w : World) :
  rechecked (run_events (fixUsingCross remote) w) = true.
Proof.
  destruct w as [f ed edt ro nt p ls lg]. unfold run_events.
  remember (fixUsingCross remote _) as out eqn:E. unfold fixUsingCross in E.
  destruct nt as [n|]; steps E; finish; observe; rewrite ?String.eqb_refl; reflexivity.
Qed.

Lemma analyzeWithVision_rechecked (remote : Remote) (w : World) :
  rechecked (run_events (analyzeWithVision remote) w) = true.
Proof.
  destruct w as [f ed edt ro nt p ls lg]. unfold run_events.
  remember (analyzeWithVision remote _) as out eqn:E. unfold analyzeWithVision in E.
  destruct nt as [n|]; steps E; finish; observe; rewrite ?String.eqb_refl; reflexivity.
Qed.

(** C1, as the code has it.  In [analyze], [applyFixes], [fixUsingCross] and
    [analyzeWithVision], whatever the services answer, every replacement of
    the editor text is followed in the same run by a cross-check call on
    exactly the new text.  [visionSubmit] is not among them: it ends after
    applying, as the lemma after this theorem shows. *)
Theorem mutation_is_rechecked (remote : Remote) (w : World) :
  rechecked (run_events (analyze remote) w) = true
  /\ rechecked (run_events (applyFixes remote) w) = true
  /\ rechecked (run_events (fixUsingCross remote) w) = true
  /\ rechecked (run_events (analyzeWithVision remote) w) = true.
Proof.
  repeat split.
  - apply analyze_rechecked.
  - apply applyFixes_rechecked.
  - apply fixUsingCross_rechecked.
  - apply analyzeWithVision_rechecked.
Qed.

(** C1 as stated fails for [visionSubmit]: with services that propose one
    edit and apply it, the run replaces the editor text and makes no
    cross-check call at all. *)
Lemma visionSubmit_is_not_rechecked :
  rechecked (run_events (visionSubmit remote_fix) sample_world) = false
  /\ In (SetValue "print(1)") (run_events (visionSubmit remote_fix) sample_world)
  /\ calls (run_events (visionSubmit remote_fix) sample_world)
     = [(ApiRun, run_body sample_world); (ApiVisionAnalyze, vision_body sample_world);
        (ApiApply, JObj [("code", JStr "1/0"); ("edits", JArr [one_edit])])].
Proof.
  split; [vm_compute; reflexivity|]. split.
  - vm_compute. repeat (first [left; reflexivity | right]).
  - vm_compute. reflexivity.
Qed.

(** C2, at its failing input.  When the page has a status line and the
    analysis request of [analyze] fails on the network, the exception leaves
    the run and the status line stays visible with the message that the run
    showed first: nothing hides it. *)
Theorem analyze_network_error_leaves_status (remote : Remote) (w : World) (n : Elem) :
  notify w = Some n ->
  remote (log (shown "Analyzing… Debugger is analyzing the code" w)) ApiAnalyze
    (analyze_body w) = None ->
  fst (analyze remote w) = Thrown "fetch failed"
  /\ status_visible (snd (analyze remote w)) = true
  /\ option_map text (notify (snd (analyze remote w)))
     = Some "Analyzing… Debugger is analyzing the code".
Proof.
  destruct w as [f ed edt ro nt p ls lg]. unfold status_visible, analyze_body.
  cbn [notify editor form]. intros Hn Hr. subst nt.
  remember (analyze remote _) as out eqn:E. unfold analyze in E.
  do 5 step E. rewrite Steps.bind_fetch in E.
  cbn [editor form] in E, Hr. rewrite Hr in E.
  finish. rewrite hidden_not_in_class_remove. repeat split.
Qed.

Lemma analyze_network_error_leaves_status_witness :
  fst (analyze remote_down sample_world) = Thrown "fetch failed"
  /\ status_visible (snd (analyze remote_down sample_world)) = true
  /\ option_map text (notify (snd (analyze remote_down sample_world)))
     = Some "Analyzing… Debugger is analyzing the code".
Proof.
  exact (analyze_network_error_leaves_status remote_down sample_world
           (mkElem ["notify"; "hidden"] "") eq_refl eq_refl).
Defined.

(** C6, as the code has it.  [applyFixes] guards the syntax of the edits
    text and nothing else.  Text that is not empty and is not JSON is
    reported with [Invalid JSON in Edits.] and nothing else happens: no
    remote call, no change to the page.  An empty field (read as [{}]) and
    text that is JSON for any value but [null] are not rejected, whatever
    their shape: the first thing the run does is to call the applier, with
    the editor text and the value of the [edits] field, or an empty
    sequence when that field is missing or falsy. *)
Theorem applyFixes_guards_syntax_only (remote : Remote) (w : World) :
  (edits w <> "" -> Json.parse (edits w) = None ->
   applyFixes remote w = (Returned tt, record (Alert "Invalid JSON in Edits.") w))
  /\ (forall parsed,
        (edits w = "" /\ parsed = JObj [])
        \/ (edits w <> "" /\ Json.parse (edits w) = Some parsed) ->
        nullish parsed = false ->
        exists r rest,
          run_events (applyFixes remote) w
          = Fetch ApiApply
              (JObj [("code", JStr (editor w));
                     ("edits", or_else (get parsed "edits") (JArr []))]) r :: rest).
Proof.
  split.
  - intros Hne Hp. unfold applyFixes.
    rewrite Steps.bind_getValue, Steps.bind_read.
    destruct (edits w =? "") eqn:He; [apply String.eqb_eq in He; contradiction|].
    rewrite Hp. apply Steps.alert_run.
  - destruct w as [f ed edt ro nt p ls lg]. cbn [edits editor].
    intros parsed Hcase Hnn. unfold run_events.
    assert (Hp : Json.parse (if edt =? "" then "{}" else edt) = Some parsed).
    { destruct Hcase as [[-> ->]|[Hne Hp]]; [reflexivity|].
      destruct (edt =? "") eqn:He; [apply String.eqb_eq in He; contradiction | exact Hp]. }
    remember (applyFixes remote _) as out eqn:E. unfold applyFixes in E.
    do 2 step E. cbn [edits] in E. rewrite Hp in E.
    rewrite Steps.bind_member, Hnn in E.
    destruct nt as [n|]; steps E; finish; observe; eexists; eexists; reflexivity.
Qed.

Lemma applyFixes_guards_syntax_only_witness :
  applyFixes remote_fix (with_edits "{edits: [}" sample_world)
  = (Returned tt,
     record (Alert "Invalid JSON in Edits.") (with_edits "{edits: [}" sample_world))
  /\ exists r rest,
       run_events (applyFixes remote_fix) (with_edits "[1, 2]" sample_world)
       = Fetch ApiApply (JObj [("code", JStr "1/0"); ("edits", JArr [])]) r :: rest.
Proof.
  split.
  - apply (proj1 (applyFixes_guards_syntax_only remote_fix
                    (with_edits "{edits: [}" sample_world))).
    + discriminate.
    + vm_compute. reflexivity.
  - apply (proj2 (applyFixes_guards_syntax_only remote_fix (with_edits "[1, 2]" sample_world))
             (JArr [JInt 1; JInt 2])).
    + right. split; [discriminate | vm_compute; reflexivity].
    + reflexivity.
Defined.

(** C6 as stated fails: the text [{}] is valid JSON but no mapping with an
    [edits] sequence, and [applyFixes] sends it on: the applier is called
    with an empty Edit sequence and nothing is reported to the operator. *)
Lemma shapeless_json_is_sent :
  valid_edits_text "{}" = false
  /\ calls (run_events (applyFixes remote_fix) (with_edits "{}" sample_world))
     = [(ApiApply, JObj [("code", JStr "1/0"); ("edits", JArr [])]);
        (ApiCrosscheck, crosscheck_body "print(1)" sample_world)]
  /\ forall msg, ~ In (Alert msg) (run_events (applyFixes remote_fix)
                                     (with_edits "{}" sample_world)).
Proof.
  split; [vm_compute; reflexivity|]. split; [vm_compute; reflexivity|].
  intros msg H. vm_compute in H.
  repeat (destruct H as [H|H]; [discriminate H|]). exact H.
Qed.

(** C9, at its failing input.  When the execution request of
    [visionSubmit] fails (no response, or a response that cannot be read),
    the exception leaves the run at once: the execution call is the only
    call, the vision service is never called, and nothing is shown or
    reported to the operator. *)
Theorem visionSubmit_run_failure_is_fatal (remote : Remote) (w : World) :
  remote (log w) ApiRun (run_body w) = None ->
  visionSubmit remote w = (Thrown "fetch failed", record (Fetch ApiRun (run_body w) None) w)
  /\ calls (run_events (visionSubmit remote) w) = [(ApiRun, run_body w)]
  /\ last_shown (run_events (visionSubmit remote) w) = None
  /\ alerts (run_events (visionSubmit remote) w) = [].
Proof.
  intros Hr.
  assert (E : visionSubmit remote w
              = (Thrown "fetch failed", record (Fetch ApiRun (run_body w) None) w)).
  { unfold visionSubmit. rewrite Steps.bind_getValue, !Steps.bind_input, Steps.bind_read.
    rewrite Steps.bind_fetch. unfold run_body in Hr. now rewrite Hr. }
  split; [exact E|]. unfold run_events. rewrite E. cbn [snd record log].
  rewrite skipn_exact. repeat split.
Qed.

Lemma visionSubmit_run_failure_is_fatal_witness :
  fst (visionSubmit remote_run_down sample_world) = Thrown "fetch failed"
  /\ calls (run_events (visionSubmit remote_run_down) sample_world)
     = [(ApiRun, run_body sample_world)].
Proof.
  destruct (visionSubmit_run_failure_is_fatal remote_run_down sample_world eq_refl)
    as (E & C & _).
  split; [now rewrite E | exact C].
Defined.

(** *** Beyond the claims *)



(** [runCode]: when the request fails, the exception leaves the function
    and the output field keeps what it showed before. *)
Theorem runCode_failure_keeps_old_output (remote : Remote) (w : World) :
  remote (log w) ApiRun (run_body w) = None ->
  runCode remote w = (Thrown "fetch failed", record (Fetch ApiRun (run_body w) None) w).
Proof.
  intros H. unfold runCode. rewrite Steps.bind_getValue, Steps.bind_fetch.
  unfold run_body in H. now rewrite H.
Qed.

Lemma runCode_failure_keeps_old_output_witness :
  runout (snd (runCode remote_down sample_world)) = runout sample_world.
Proof.
  now rewrite (runCode_failure_keeps_old_output remote_down sample_world eq_refl).
Defined.

(** [applyFixes]: the text [null] is JSON, so it passes the parse guard;
    reading [edits] of it then throws, and the run ends there without a
    remote call and without any message to the operator. *)
Theorem applyFixes_dies_silently_on_null (remote : Remote) (w : World) :
  Json.parse (edits w) = Some JNull ->
  applyFixes remote w = (Thrown "TypeError", w).
Proof.
  intros Hp. unfold applyFixes. rewrite Steps.bind_getValue, Steps.bind_read.
  destruct (edits w =? "") eqn:He.
  - apply String.eqb_eq in He. rewrite He in Hp. discriminate Hp.
  - rewrite Hp. now rewrite Steps.bind_member.
Qed.

Lemma applyFixes_dies_silently_on_null_witness :
  applyFixes remote_fix (with_edits "null" sample_world)
  = (Thrown "TypeError", with_edits "null" sample_world).
Proof.
  apply (applyFixes_dies_silently_on_null remote_fix (with_edits "null" sample_world)).
  vm_compute. reflexivity.
Defined.

(** [fixUsingCross] and [analyzeWithVision] (when no chosen file fails to be
    read) never let an exception out and always end with the status line
    hidden, whatever the services do. *)
Theorem guarded_runs_always_settle (remote : Remote) (w : World) :
  (fst (fixUsingCross remote w) = Returned tt
   /\ status_visible (snd (fixUsingCross remote w)) = false)
  /\ (visionImageFile (form w) <> Some None ->
      fst (analyzeWithVision remote w) = Returned tt
      /\ status_visible (snd (analyzeWithVision remote w)) = false).
Proof.
  destruct w as [f ed edt ro nt p ls lg]. split.
  - remember (fixUsingCross remote _) as out eqn:E. unfold fixUsingCross in E.
    do 5 step E. rewrite Steps.guarded_run in E. subst out. cbn [fst snd].
    split; [reflexivity | apply hidden_is_hidden].
  - cbn [form]. intros Hf.
    remember (analyzeWithVision remote _) as out eqn:E. unfold analyzeWithVision in E.
    do 6 step E. cbn [form] in E.
    destruct (visionImageFile f) as [[d|]|]; [| contradiction |].
    + do 3 step E. rewrite Steps.guarded_run in E. subst out. cbn [fst snd].
      split; [reflexivity | apply hidden_is_hidden].
    + do 2 step E. rewrite Steps.guarded_run in E. subst out. cbn [fst snd].
      split; [reflexivity | apply hidden_is_hidden].
Qed.

Lemma guarded_runs_always_settle_witness :
  fst (analyzeWithVision remote_down sample_world) = Returned tt
  /\ status_visible (snd (analyzeWithVision remote_down sample_world)) = false.
Proof.
  apply (proj2 (guarded_runs_always_settle remote_down sample_world)). discriminate.
Defined.





(** [analyze]: the same refusal inside the automatic application is
    swallowed.  When the applier answers without a true [ok], or not at
    all, the run ends normally without any alert box, makes no further
    call, and leaves the editor text as it was: the operator is told
    nothing. *)
Theorem analyze_apply_refusal_is_silent (remote : Remote) (w : World) (body : JsValue)
    (r : option JsValue) :
  In (Fetch ApiApply body r) (run_events (analyze remote) w) ->
  response_ok r = false ->
  fst (analyze remote w) = Returned tt
  /\ calls (after_apply (run_events (analyze remote) w)) = []
  /\ alerts (run_events (analyze remote) w) = []
  /\ editor (snd (analyze remote w)) = editor w
  /\ status_visible (snd (analyze remote w)) = false.
Proof.
  destruct w as [f ed edt ro nt p ls lg]. unfold run_events.
  intros HI Hok. revert HI.
  remember (analyze remote _) as out eqn:E. unfold analyze in E.
  destruct nt as [n|]; steps E; finish; observe; rewrite ?hidden_in_class_add;
    try discriminate; try (cbn in Hok; congruence); repeat split; congruence.
Qed.

Lemma analyze_apply_refusal_is_silent_witness :
  alerts (run_events (analyze remote_apply_refused) sample_world) = []
  /\ editor (snd (analyze remote_apply_refused sample_world)) = "1/0".
Proof.
  destruct (analyze_apply_refusal_is_silent remote_apply_refused sample_world
              (JObj [("code", JStr "1/0"); ("edits", JArr [one_edit])])
              (Some (refusal "bad edit")))
    as (_ & _ & Ha & He & _).
  - vm_compute. repeat (first [left; reflexivity | right]).
  - reflexivity.
  - split; [exact Ha | exact He].
Defined.

(** [fixUsingCross]: the first call of a run is always the fix request, and
    it carries the editor text, the report read back from what the panel
    shows, and the model and timeout settings. *)
Theorem fixUsingCross_sends_the_shown_report (remote : Remote) (w : World) :
  exists rest,
    calls (run_events (fixUsingCross remote) w) = (ApiFixFromCrosscheck, fix_body w) :: rest.
Proof.
  destruct w as [f ed edt ro nt p ls lg]. unfold run_events, fix_body.
  remember (fixUsingCross remote _) as out eqn:E. unfold fixUsingCross in E.
  destruct nt as [n|]; steps E; finish; observe; eexists; reflexivity.
Qed.

Ltac settle_code :=
  repeat match goal with
  | H : truthy ?v = _ |- context [truthy ?v] => rewrite H
  | H : get ?d "code" = _ |- context [get ?d "code"] => rewrite H
  end; try reflexivity; try congruence.

(** [fixUsingCross] and [analyzeWithVision]: when the fixing service (the
    vision service) answers with a true [ok] and its [code] is text or is
    absent, exactly one call follows: a cross-check of the text that the
    editor holds at the end of the run.  That text is the returned code when
    it is not empty, and the text from before the run otherwise. *)
Theorem fix_answer_is_rechecked (remote : Remote) (w : World) (run : M unit)
    (ep : Endpoint) (body data : JsValue) :
  (run = fixUsingCross remote /\ ep = ApiFixFromCrosscheck)
  \/ (run = analyzeWithVision remote /\ ep = ApiVisionAnalyze) ->
  In (Fetch ep body (Some data)) (run_events run w) ->
  truthy (get data "ok") = true ->
  (exists text, get data "code" = JStr text) \/ truthy (get data "code") = false ->
  calls (run_events run w)
  = [(ep, body); (ApiCrosscheck, crosscheck_body (editor (snd (run w))) w)]
  /\ editor (snd (run w))
     = (if truthy (get data "code") then to_string (get data "code") else editor w).
Proof.
  destruct w as [f ed edt ro nt p ls lg]. unfold run_events, crosscheck_body.
  intros [[-> ->]|[-> ->]] HI Hok Hcode; pose proof (truthy_get_nullish _ _ Hok) as Hnn;
    revert HI.
  - remember (fixUsingCross remote _) as out eqn:E. unfold fixUsingCross in E.
    destruct nt as [n|]; steps E; finish; observe; try congruence.
    all: try match goal with H : exists _, _ |- _ => destruct H end; try congruence.
    all: split; [reflexivity|]; settle_code.
  - remember (analyzeWithVision remote _) as out eqn:E. unfold analyzeWithVision in E.
    destruct nt as [n|]; steps E; finish; observe; try congruence.
    all: try match goal with H : exists _, _ |- _ => destruct H end; try congruence.
    all: split; [reflexivity|]; settle_code.
Qed.

Lemma fix_answer_is_rechecked_witness :
  calls (run_events (fixUsingCross remote_fix) sample_world)
  = [(ApiFixFromCrosscheck, fix_body sample_world);
     (ApiCrosscheck, crosscheck_body "print(2)" sample_world)].
Proof.
  destruct (fix_answer_is_rechecked remote_fix sample_world (fixUsingCross remote_fix)
              ApiFixFromCrosscheck (fix_body sample_world)
              (JObj [("ok", JBool true); ("code", JStr "print(2)")]))
    as (Hc & He).
  - left. split; reflexivity.
  - vm_compute. repeat (first [left; reflexivity | right]).
  - reflexivity.
  - left. exists "print(2)". reflexivity.
  - rewrite Hc, He. reflexivity.
Defined.








Lemma in_class_add (c d : string) (l : list string) :
  c <> d -> (In c (class_add d l) <-> In c l).
Proof.
  intros Hcd. unfold class_add. destruct (existsb (String.eqb d) l); [tauto|].
  rewrite in_app_iff. cbn. split; [intros [H|[H|[]]]; [exact H | congruence] | auto].
Qed.

Lemma in_class_remove (c d : string) (l : list string) :
  c <> d -> (In c (class_remove d l) <-> In c l).
Proof.
  intros Hcd. unfold class_remove. rewrite filter_In. split; [tauto|].
  intros H. split; [exact H|]. apply negb_true_iff. now apply String.eqb_neq.
Qed.

(** [showNotify] and [hideNotify]: after hiding, the status line is never
    visible.  On a page with a status line, showing makes it visible with
    the given message, and hiding afterwards keeps that message as its
    text.  Neither touches any class but [hidden].  On a page without the
    element both leave the page exactly as it is. *)
Theorem status_line_laws (msg : string) (w : World) :
  status_visible (hidden w) = false
  /\ (notify w <> None ->
      status_visible (shown msg w) = true
      /\ status_text (shown msg w) = Some msg
      /\ status_text (hidden (shown msg w)) = Some msg)
  /\ (forall c, c <> "hidden" ->
      (In c (status_classes (shown msg w)) <-> In c (status_classes w))
      /\ (In c (status_classes (hidden w)) <-> In c (status_classes w)))
  /\ (notify w = None -> shown msg w = w /\ hidden w = w).
Proof.
  split; [apply hidden_is_hidden|].
  destruct w as [f ed edt ro [n|] p ls lg];
    unfold shown, hidden, showNotify, hideNotify, status_visible, status_text, status_classes;
    cbn [snd notify record set_notify classes text option_map].
  - split; [intros _; rewrite hidden_not_in_class_remove; repeat split|].
    split; [|discriminate].
    intros c Hc. split; [now apply in_class_remove | now apply in_class_add].
  - split; [intros H; now contradiction H|].
    split; [intros c Hc; split; reflexivity|]. intros _. split; reflexivity.
Qed.

Lemma status_line_laws_witness :
  status_visible (shown "Applying fixes…" sample_world) = true
  /\ status_text (hidden (shown "Applying fixes…" sample_world)) = Some "Applying fixes…"
  /\ (In "notify" (status_classes (hidden sample_world))
      <-> In "notify" (status_classes sample_world)).
Proof.
  destruct (status_line_laws "Applying fixes…" sample_world) as (_ & Hs & Hc & _).
  destruct Hs as (Hv & _ & Ht); [discriminate|].
  split; [exact Hv|]. split; [exact Ht|].
  apply (Hc "notify"). discriminate.
Defined.

Lemma render_opens (payload : JsValue) (p : Panel) (cl : list string) :
  modalOverlay p = Some cl ->
  render_result payload = Returned tt ->
  modalOverlay (render_panel payload p) = Some (class_remove "hidden" cl).
Proof.
  unfold render_panel, render_result. intros Hp.
  destruct (nullish payload); [discriminate|].
  destruct (or_else (get payload "overall") (JStr "mixed")); try discriminate.
  destruct (fst (rendered_items (payload_tests payload))); [|discriminate].
  intros _. cbn [modalOverlay]. now rewrite Hp.
Qed.

Lemma render_keeps_closed (payload : JsValue) (p : Panel) :
  render_result payload <> Returned tt ->
  modalOverlay (render_panel payload p) = modalOverlay p.
Proof.
  unfold render_panel, render_result.
  destruct (nullish payload); [reflexivity|].
  destruct (or_else (get payload "overall") (JStr "mixed")); try reflexivity.
  destruct (fst (rendered_items (payload_tests payload))) as [[]|e];
    [intros H; now contradiction H | reflexivity].
Qed.

Lemma modal_open_render (payload : JsValue) (w : World) :
  modalOverlay (panel w) <> None ->
  render_result payload = Returned tt ->
  modal_open (set_panel (render_panel payload (panel w)) w) = true.
Proof.
  intros Hm Hr. destruct (modalOverlay (panel w)) as [cl|] eqn:Hcl; [|now contradiction Hm].
  unfold modal_open, set_panel. cbn [panel].
  rewrite (render_opens payload (panel w) cl Hcl Hr).
  now rewrite hidden_not_in_class_remove.
Qed.

(** The modal: after [closeCrossModal] it is never open; on a page that has
    the overlay, [openCrossModal] opens it, and so does every rendering that
    ends normally, so that closing and rendering again shows it again.  A
    rendering that throws leaves the overlay as it was. *)
Theorem modal_laws (payload : JsValue) (w : World) :
  modal_open (closed w) = false
  /\ (modalOverlay (panel w) <> None ->
      modal_open (opened w) = true
      /\ (fst (renderCrosscheck payload w) = Returned tt ->
          modal_open (snd (renderCrosscheck payload w)) = true
          /\ modal_open (snd (renderCrosscheck payload
                                (closed (snd (renderCrosscheck payload w))))) = true))
  /\ (fst (renderCrosscheck payload w) <> Returned tt ->
      modalOverlay (panel (snd (renderCrosscheck payload w))) = modalOverlay (panel w)).
Proof.
  rewrite !PresenterFacts.renderCrosscheck_eq. cbn [fst snd].
  split; [|split].
  - unfold closed, closeCrossModal, update, modal_open. cbn [snd].
    destruct (modalOverlay (panel w)) as [cl|] eqn:Hcl.
    + unfold set_panel, set_modalOverlay. cbn [panel modalOverlay].
      now rewrite hidden_in_class_add.
    + now rewrite Hcl.
  - intros Hm. split.
    + unfold opened, openCrossModal, update, modal_open. cbn [snd].
      destruct (modalOverlay (panel w)) as [cl|] eqn:Hcl; [|now contradiction Hm].
      unfold set_panel, set_modalOverlay. cbn [panel modalOverlay].
      now rewrite hidden_not_in_class_remove.
    + intros Hr. split; [now apply modal_open_render|].
      apply modal_open_render; [|exact Hr].
      unfold closed, closeCrossModal, update. cbn [snd].
      destruct (modalOverlay (panel w)) as [cl|] eqn:Hcl; [|now contradiction Hm].
      cbn [panel set_panel]. rewrite (render_opens payload (panel w) cl Hcl Hr).
      cbn [panel set_panel set_modalOverlay modalOverlay]. discriminate.
  - intros Hr. unfold set_panel. cbn [panel]. now apply render_keeps_closed.
Qed.

Lemma modal_laws_witness :
  modal_open sample_world = false
  /\ modal_open (snd (renderCrosscheck sample_report sample_world)) = true.
Proof.
  split; [reflexivity|].
  destruct (modal_laws sample_report sample_world) as (_ & H & _).
  destruct H as (_ & H); [discriminate|].
  destruct H as (H & _); [reflexivity|]. exact H.
Defined.

Lemma rendered_items_stop (good rest : list JsValue) (bad : JsValue) :
  forallb non_degenerate_test good = true ->
  forallb stable_test good = true ->
  unreadable bad = true ->
  rendered_items (good ++ bad :: rest) = (Thrown "TypeError", map shown_li good).
Proof.
  intros Hg Sg Hb. induction good as [|t good IH].
  - cbn [app map rendered_items]. unfold unreadable in Hb.
    destruct (nullish bad); [reflexivity|]. cbn [orb] in Hb.
    apply andb_true_iff in Hb. destruct Hb as [Ht Hs]. unfold or_else. rewrite Ht.
    destruct (get bad "status"); try reflexivity. discriminate Hs.
  - cbn [forallb] in Hg, Sg. apply andb_true_iff in Hg. destruct Hg as [Ht Hg].
    apply andb_true_iff in Sg. destruct Sg as [St Sg].
    destruct (RoundTripFacts.test_item_wf t Ht St) as (N & S1 & S2 & S3 & _).
    cbn [app map rendered_items]. now rewrite N, S1, S2, S3, (IH Hg Sg).
Qed.

(** [renderCrosscheck] on a report with an unreadable test entry (null, or
    a status that is truthy and not text) after well-formed ones: the
    rendering throws at that entry.  By then the previous list is gone,
    the entries before the bad one are shown, those after it are not, and
    the modal is not opened. *)
Theorem render_stops_at_unreadable_entry (payload : JsValue) (w : World) (overall : string)
    (good rest : list JsValue) (bad : JsValue) :
  get payload "overall" = JStr overall ->
  get payload "tests" = JArr (good ++ bad :: rest) ->
  forallb non_degenerate_test good = true ->
  forallb stable_test good = true ->
  unreadable bad = true ->
  fst (renderCrosscheck payload w) = Thrown "TypeError"
  /\ testList (panel (snd (renderCrosscheck payload w))) = map shown_li good
  /\ modalOverlay (panel (snd (renderCrosscheck payload w))) = modalOverlay (panel w).
Proof.
  intros Ho Ht Hg Sg Hb. rewrite PresenterFacts.renderCrosscheck_eq. cbn [fst snd].
  assert (Hn : nullish payload = false) by (destruct payload; try reflexivity; discriminate Ho).
  assert (Hs : exists o, or_else (get payload "overall") (JStr "mixed") = JStr o).
  { rewrite Ho. unfold or_else. destruct (truthy (JStr overall)); eexists; reflexivity. }
  destruct Hs as [o Hs].
  unfold render_result, render_panel, payload_tests, set_panel. cbn [panel].
  rewrite Hn, Hs, Ht. cbn [isArray items_of].
  rewrite (rendered_items_stop good rest bad Hg Sg Hb). cbn [fst snd testList modalOverlay].
  repeat split.
Qed.

Lemma render_stops_at_unreadable_entry_witness :
  testList (panel (snd (renderCrosscheck
                          (report_of "fail" [sample_test_1; JNull; sample_test_2])
                          sample_world)))
  = [shown_li sample_test_1].
Proof.
  exact (proj1 (proj2 (render_stops_at_unreadable_entry
           (report_of "fail" [sample_test_1; JNull; sample_test_2]) sample_world
           "fail" [sample_test_1] [sample_test_2] JNull eq_refl eq_refl eq_refl eq_refl
           eq_refl))).
Defined.

(** [fixUsingCross], the report it reads from the panel: whatever the panel
    shows, the overall verdict and the summary are text, and every test has
    a text name, description and reason and a status that is [pass] or
    [fail]. *)
Theorem extract_has_the_report_shape (p : Panel) :
  is_string (get (extract p) "overall") = true
  /\ is_string (get (extract p) "summary") = true
  /\ forall t, In t (items_of (get (extract p) "tests")) ->
       is_string (get t "name") = true
       /\ is_string (get t "description") = true
       /\ is_status (get t "status") = true
       /\ is_string (get t "reason") = true.
Proof.
  unfold extract. cbn [get lookup String.eqb Ascii.eqb Bool.eqb is_string items_of].
  split; [reflexivity|]. split; [reflexivity|].
  intros t Ht. apply in_map_iff in Ht. destruct Ht as (li & <- & _).
  unfold extract_test. cbn [get lookup String.eqb Ascii.eqb Bool.eqb is_string].
  repeat split.
  destruct (Html.querySelector "dot" _) as [dot|]; [|reflexivity].
  now destruct (Html.has_class "pass" dot).
Qed.

Lemma extract_has_the_report_shape_witness :
  is_status (get (extract_test (shown_li sample_test_2)) "status") = true.
Proof.
  destruct (extract_has_the_report_shape
              (mkPanel (mkElem ["badge"] "") "" "" "" [shown_li sample_test_2] None))
    as (_ & _ & H).
  destruct (H (extract_test (shown_li sample_test_2))) as (_ & _ & Hs & _).
  - vm_compute. left. reflexivity.
  - exact Hs.
Defined.

Lemma is_comma (c : ascii) : (code c =? 44)%nat = Ascii.eqb c comma.
Proof. destruct c as [[] [] [] [] [] [] [] []]; reflexivity. Qed.

Lemma until_comma_clean (s : string) : occurs comma s = false -> until_comma s = s.
Proof.
  induction s as [|c s IH]; [reflexivity|]. cbn [occurs until_comma]. intros H.
  apply orb_false_iff in H. destruct H as [Hc Hs]. rewrite is_comma, Hc. now rewrite IH.
Qed.

Lemma second_piece_none (s : string) : occurs comma s = false -> second_piece s = JUndefined.
Proof.
  induction s as [|c s IH]; [reflexivity|]. cbn [occurs second_piece]. intros H.
  apply orb_false_iff in H. destruct H as [Hc Hs]. rewrite is_comma, Hc. now apply IH.
Qed.

Lemma second_piece_app (mime rest : string) :
  occurs comma mime = false ->
  second_piece (mime ++ String comma rest) = JStr (until_comma rest).
Proof.
  induction mime as [|c s IH]; [reflexivity|].
  change (String c s ++ String comma rest) with (String c (s ++ String comma rest)).
  cbn [occurs second_piece]. intros H. apply orb_false_iff in H. destruct H as [Hc Hs]. rewrite is_comma, Hc. now apply IH.
Qed.

Lemma data_url_split (mime b64 : string) :
  occurs comma mime = false ->
  occurs comma b64 = false ->
  second_piece (mime ++ String comma b64) = JStr b64
  /\ second_piece mime = JUndefined.
Proof.
  intros Hm Hb. split; [|now apply second_piece_none].
  rewrite second_piece_app by exact Hm. now rewrite until_comma_clean.
Qed.

(** The split of a data URL at its commas ([fileToBase64],
    [captureScreenShot]): the payload after the first comma is what is kept,
    whatever the media type before it; text without a comma yields
    [undefined]. *)
Theorem data_url_payload (mime b64 : string) :
  occurs comma mime = false ->
  occurs comma b64 = false ->
  second_piece (mime ++ String comma b64) = JStr b64
  /\ second_piece mime = JUndefined.
Proof.
  intros Hm Hb. now apply data_url_split.
Qed.

Lemma data_url_payload_witness :
  second_piece "data:image/png;base64,iVBORw0KGgo=" = JStr "iVBORw0KGgo=".
Proof.
  exact (proj1 (data_url_payload "data:image/png;base64" "iVBORw0KGgo=" eq_refl eq_refl)).
Defined.

Lemma visionSubmit_image (remote : Remote) (w : World) (body : JsValue) (r : option JsValue) :
  In (Fetch ApiVisionAnalyze body r) (run_events (visionSubmit remote) w) ->
  get body "imageBase64" = or_else (lastScreenshotBase64 w) JNull.
Proof.
  destruct w as [f ed edt ro nt p ls lg]. unfold run_events.
  remember (visionSubmit remote _) as out eqn:E. unfold visionSubmit in E.
  destruct nt as [n|]; steps E; finish; observe; reflexivity.
Qed.

(** [captureScreenShot] and [visionSubmit] together.  A captured frame is
    stored as the payload of its data URL and announced on the status line,
    which then stays visible; every vision request of a later
    [visionSubmit] carries exactly that payload.  A failed capture is
    reported in one alert box and keeps the screenshot stored before. *)
Theorem captured_frame_is_submitted (remote : Remote) (w : World) (mime b64 message : string) :
  occurs comma mime = false ->
  occurs comma b64 = false ->
  b64 <> "" ->
  let w' := snd (captureScreenShot (inl (mime ++ String comma b64)) w) in
  lastScreenshotBase64 w' = JStr b64
  /\ (notify w <> None ->
      status_text w' = Some "Screenshot captured." /\ status_visible w' = true)
  /\ (forall body r,
        In (Fetch ApiVisionAnalyze body r) (run_events (visionSubmit remote) w') ->
        get body "imageBase64" = JStr b64)
  /\ lastScreenshotBase64 (snd (captureScreenShot (inr message) w)) = lastScreenshotBase64 w
  /\ alerts (run_events (captureScreenShot (inr message)) w) = ["Screenshot failed: " ++ message].
Proof.
  intros Hm Hb Hne w'.
  assert (Hl : lastScreenshotBase64 w' = JStr b64).
  { subst w'. unfold captureScreenShot. rewrite Steps.bind_update.
    destruct (data_url_split mime b64 Hm Hb) as [-> _].
    unfold showNotify, set_lastScreenshotBase64. cbn [notify].
    now destruct (notify w). }
  split; [exact Hl|]. split; [|split; [|split]].
  - intros Hn. subst w'. unfold captureScreenShot. rewrite Steps.bind_update.
    unfold showNotify, set_lastScreenshotBase64, status_text, status_visible. cbn [notify].
    destruct (notify w) as [n|]; [|now contradiction Hn].
    cbn [snd record set_notify notify option_map text classes].
    now rewrite hidden_not_in_class_remove.
  - intros body r HI. rewrite (visionSubmit_image remote w' body r HI), Hl.
    unfold or_else. cbn [truthy]. destruct b64; [now contradiction Hne | reflexivity].
  - reflexivity.
  - unfold run_events, captureScreenShot, alert, update, record. cbn [snd log].
    now rewrite skipn_exact.
Qed.

Lemma captured_frame_is_submitted_witness :
  lastScreenshotBase64
    (snd (captureScreenShot (inl "data:image/png;base64,iVBORw0KGgo=") sample_world))
  = JStr "iVBORw0KGgo="
  /\ alerts (run_events (captureScreenShot (inr "Permission denied")) sample_world)
     = ["Screenshot failed: Permission denied"].
Proof.
  destruct (captured_frame_is_submitted remote_fix sample_world "data:image/png;base64"
              "iVBORw0KGgo=" "Permission denied" eq_refl eq_refl)
    as (Hl & _ & _ & _ & Ha).
  - discriminate.
  - split; [exact Hl | exact Ha].
Defined.

(** [analyzeWithVision] and the chosen image file.  A file that cannot be
    read aborts the run before anything is shown or sent: the exception
    leaves the function and the page is untouched.  Otherwise every vision
    request carries the payload of the file's data URL, or [null] when no
    file is chosen, together with the image URL field as typed. *)
Theorem analyzeWithVision_image (remote : Remote) (w : World) :
  (visionImageFile (form w) = Some None ->
   analyzeWithVision remote w = (Thrown "read error", w))
  /\ (forall body r,
        In (Fetch ApiVisionAnalyze body r) (run_events (analyzeWithVision remote) w) ->
        get body "imageBase64"
        = match visionImageFile (form w) with
          | Some (Some dataUrl) => second_piece dataUrl
          | _ => JNull
          end
        /\ get body "imageUrl" = JStr (visionImageUrl (form w))).
Proof.
  destruct w as [f ed edt ro nt p ls lg]. cbn [form]. split.
  - intros Hf. unfold analyzeWithVision.
    rewrite Steps.bind_getValue, !Steps.bind_input, Steps.bind_read. cbn [form].
    rewrite Hf. unfold fileToBase64. now rewrite Steps.bind_throw.
  - intros body r. unfold run_events.
    remember (analyzeWithVision remote _) as out eqn:E. unfold analyzeWithVision in E.
    do 6 step E. cbn [form] in E.
    destruct (visionImageFile f) as [[d|]|]; destruct nt as [n|]; steps E; finish; observe;
      split; reflexivity.
Qed.

Lemma analyzeWithVision_image_witness :
  get (JObj [("code", JStr "1/0"); ("prompt", JStr ""); ("imageUrl", JStr "");
             ("imageBase64", JNull); ("model", JStr "gemini-2.5-pro");
             ("timeout", JStr "30")]) "imageBase64" = JNull.
Proof.
  refine (proj1 (proj2 (analyzeWithVision_image remote_fix sample_world) _
            (Some (JObj [("ok", JBool true); ("edits", JObj [("edits", JArr [one_edit])])]))
            _)).
  vm_compute. repeat (first [left; reflexivity | right]).
Defined.

Lemma digits_of_uint (d : Decimal.uint) : forall (acc : Z) (rest : string),
  digits_value acc (NilEmpty.string_of_uint d ++ rest) = digits_value (uint_value acc d) rest.
Proof.
  induction d; intros acc rest; cbn [NilEmpty.string_of_uint uint_value];
    [reflexivity | ..];
    change (String ?c ?s ++ rest) with (String c (s ++ rest));
    cbn [digits_value];
    match goal with
    | |- context [is_digit ?c] => change (is_digit c) with true
    end;
    match goal with
    | |- context [digit_val ?c] =>
        let v := eval vm_compute in (digit_val c) in change (digit_val c) with v
    end;
    rewrite IHd; f_equal; f_equal; lia.
Qed.

Lemma uint_value_acc (d : Decimal.uint) : forall acc : positive,
  uint_value (Z.pos acc) d = Z.pos (Pos.of_uint_acc d acc).
Proof.
  induction d; intros acc; cbn [uint_value Pos.of_uint_acc]; [reflexivity | ..];
    rewrite <- IHd; f_equal; lia.
Qed.

Lemma uint_value_of_uint (d : Decimal.uint) : uint_value 0 d = Z.of_N (Pos.of_uint d).
Proof.
  induction d; cbn [uint_value Pos.of_uint]; [reflexivity | exact IHd | ..];
    change (0 * 10 + ?k)%Z with k; now rewrite uint_value_acc.
Qed.

Lemma uint_value_to_uint (p : positive) : uint_value 0 (Pos.to_uint p) = Z.pos p.
Proof. now rewrite uint_value_of_uint, DecimalPos.Unsigned.of_to. Qed.

Lemma string_of_to_uint (p : positive) :
  NilZero.string_of_uint (Pos.to_uint p) = NilEmpty.string_of_uint (Pos.to_uint p)
  /\ exists c r, NilEmpty.string_of_uint (Pos.to_uint p) = String c r /\ is_digit c = true.
Proof.
  pose proof (DecimalPos.Unsigned.to_uint_nonnil p) as H.
  destruct (Pos.to_uint p); [now contradiction H | ..];
    (split; [reflexivity|]); cbn [NilEmpty.string_of_uint]; eexists; eexists;
    (split; [reflexivity | reflexivity]).
Qed.

Lemma ascii_is_no_wide_space (a : ascii) :
  (code a <? 128)%nat = true ->
  (forall b, is_space2 a b = false) /\ (forall b c, is_space3 a b c = false).
Proof.
  intros H.
  assert (E : (code a =? 194)%nat = false /\ (code a =? 225)%nat = false
              /\ (code a =? 226)%nat = false /\ (code a =? 227)%nat = false
              /\ (code a =? 239)%nat = false).
  { apply Nat.ltb_lt in H. repeat split; apply Nat.eqb_neq; lia. }
  destruct E as (E1 & E2 & E3 & E4 & E5).
  split; intros; unfold is_space2, is_space3; now rewrite ?E1, ?E2, ?E3, ?E4, ?E5.
Qed.

Lemma trim_start_ascii (a : ascii) (r : string) :
  (code a <? 128)%nat = true -> is_space a = false ->
  trim_start (String a r) = String a r.
Proof.
  intros Ha Hs. destruct (ascii_is_no_wide_space a Ha) as [H2 H3].
  cbn [trim_start]. rewrite Hs.
  destruct r as [|b r1]; [reflexivity|]. rewrite H2.
  destruct r1 as [|c r2]; [reflexivity|]. now rewrite H3.
Qed.

Lemma ends_plain_cons (c : ascii) (r : string) :
  r <> "" -> ends_plain (String c r) = ends_plain r.
Proof. destruct r; [intros H; now contradiction H | reflexivity]. Qed.

Lemma ends_plain_app (x y : string) : ends_plain y = true -> ends_plain (x ++ y) = true.
Proof.
  intros Hy. induction x as [|c x IH]; [exact Hy|].
  change (String c x ++ y) with (String c (x ++ y)).
  rewrite ends_plain_cons; [exact IH|].
  destruct x; [destruct y; [discriminate Hy | discriminate] | discriminate].
Qed.

Lemma space_is_not_plain (c : ascii) :
  is_space c = true -> (code c <? 128)%nat && negb (is_space c) = false.
Proof. intros ->. apply andb_false_r. Qed.

Lemma wide_tail_is_not_plain (a b : ascii) :
  is_space2 a b = true -> (code b <? 128)%nat = false.
Proof.
  unfold is_space2. intros H. apply andb_true_iff in H as [_ H].
  apply Nat.eqb_eq in H. apply Nat.ltb_ge. lia.
Qed.

Lemma wide_tail3_is_not_plain (a b c : ascii) :
  is_space3 a b c = true -> (code c <? 128)%nat = false.
Proof.
  unfold is_space3. intros H. apply Nat.ltb_ge.
  repeat (apply orb_true_iff in H; destruct H as [H|H]);
    repeat (apply andb_true_iff in H; destruct H as [H ?]);
    repeat match goal with
           | X : (_ =? _)%nat = true |- _ => apply Nat.eqb_eq in X
           | X : (_ <=? _)%nat = true |- _ => apply Nat.leb_le in X
           | X : _ || _ = true |- _ => apply orb_true_iff in X; destruct X
           | X : _ && _ = true |- _ => apply andb_true_iff in X; destruct X
           end; lia.
Qed.

(** Text that ends plainly is never white space only. *)
Lemma trim_start_nonempty (n : nat) : forall s,
  (String.length s <= n)%nat -> ends_plain s = true -> trim_start s <> "".
Proof.
  induction n as [|n IH]; intros s Hl Hp.
  - destruct s; [discriminate Hp | cbn in Hl; lia].
  - destruct s as [|a r]; [discriminate Hp|]. cbn [String.length] in Hl.
    cbn [trim_start].
    destruct (is_space a) eqn:Ha.
    + destruct r as [|b r1].
      * cbn [ends_plain] in Hp. rewrite (space_is_not_plain a Ha) in Hp. discriminate Hp.
      * apply IH; [lia|]. now rewrite ends_plain_cons in Hp by discriminate.
    + destruct r as [|b r1]; [discriminate|].
      destruct (is_space2 a b) eqn:H2.
      * destruct r1 as [|c r2].
        { cbn [ends_plain] in Hp. rewrite (wide_tail_is_not_plain a b H2) in Hp.
          discriminate Hp. }
        { apply IH; [cbn [String.length] in *; lia|].
          rewrite !ends_plain_cons in Hp by discriminate. exact Hp. }
      * destruct r1 as [|c r2]; [discriminate|].
        destruct (is_space3 a b c) eqn:H3; [|discriminate].
        destruct r2 as [|d r3].
        { cbn [ends_plain] in Hp. rewrite (wide_tail3_is_not_plain a b c H3) in Hp.
          discriminate Hp. }
        { apply IH; [cbn [String.length] in *; lia|].
          rewrite !ends_plain_cons in Hp by discriminate. exact Hp. }
Qed.

Lemma trim_end_plain (s : string) : ends_plain s = true -> trim_end s = s.
Proof.
  induction s as [|c r IH]; [discriminate|]. intros Hp.
  cbn [trim_end].
  destruct (trim_start (String c r) =? "") eqn:E.
  - apply String.eqb_eq in E.
    now contradiction (trim_start_nonempty _ (String c r) (le_n _) Hp).
  - destruct r as [|d r]; [reflexivity|].
    rewrite IH; [reflexivity|]. now rewrite ends_plain_cons in Hp by discriminate.
Qed.

Lemma digit_is_ascii (c : ascii) :
  is_digit c = true -> (code c <? 128)%nat = true /\ is_space c = false.
Proof. destruct c as [[] [] [] [] [] [] [] []]; intros H; try discriminate H; split; reflexivity. Qed.

(** A count as displayed, read back: [parseInt] undoes the decimal notation. *)
Lemma count_read_back (z : Z) (suffix : string) :
  ends_plain suffix = true -> starts_with_digit suffix = false ->
  parseInt_or_0 (trim (to_string (or_else (JInt z) (JInt 0)) ++ suffix)) = JInt z.
Proof.
  intros Hp Hd.
  assert (Hz : to_string (or_else (JInt z) (JInt 0)) = Z_to_string z).
  { assert (H1 : forall y, to_string (JInt y) = Z_to_string y).
    { intros y. unfold JInt.
      change (to_string (JNum (mkNumber y 0))) with (Z_to_string (y * 1)).
      now rewrite Z.mul_1_r. }
    destruct z; unfold or_else; cbn [truthy JInt mant Z.eqb negb]; apply H1. }
  rewrite Hz. unfold parseInt_or_0, parseInt, trim, Z_to_string.
  assert (Hv : forall acc, digits_value acc suffix = acc).
  { intros acc. destruct suffix as [|c s]; [reflexivity|]. cbn [starts_with_digit] in Hd.
    cbn [digits_value]. now rewrite Hd. }
  assert (Hte : forall x, trim_end (x ++ suffix) = x ++ suffix).
  { intros x. apply trim_end_plain. now apply ends_plain_app. }
  destruct z as [|p|p].
  - change (NilZero.string_of_int (Z.to_int 0)) with "0".
    change ("0" ++ suffix) with (String "0" suffix).
    rewrite (trim_start_ascii "0" suffix eq_refl eq_refl).
    change (String "0" suffix) with ("0" ++ suffix). rewrite Hte.
    change ("0" ++ suffix) with (String "0" suffix).
    rewrite (trim_start_ascii "0" suffix eq_refl eq_refl).
    cbv beta iota. cbn [starts_with_digit]. change (is_digit "0") with true. cbv iota.
    cbn [digits_value]. change (is_digit "0") with true. cbv iota.
    now rewrite Hv.
  - cbn [Z.to_int NilZero.string_of_int].
    destruct (string_of_to_uint p) as (-> & c & r & Hs & Hc).
    destruct (digit_is_ascii c Hc) as (Hasc & Hsp).
    assert (Htrim : trim_start (NilEmpty.string_of_uint (Pos.to_uint p) ++ suffix)
                    = NilEmpty.string_of_uint (Pos.to_uint p) ++ suffix).
    { rewrite Hs. change (String c r ++ suffix) with (String c (r ++ suffix)).
      now apply trim_start_ascii. }
    rewrite Htrim, Hte, Htrim.
    assert (Hval : digits_value 0 (NilEmpty.string_of_uint (Pos.to_uint p) ++ suffix) = Z.pos p).
    { now rewrite digits_of_uint, uint_value_to_uint, Hv. }
    rewrite Hs in Hval |- *. change (String c r ++ suffix) with (String c (r ++ suffix)) in *.
    set (rest := r ++ suffix) in *. clearbody rest. clear Hs Htrim Hasc Hsp.
    destruct c as [[] [] [] [] [] [] [] []]; try discriminate Hc;
      cbv beta iota; cbn [starts_with_digit];
      match goal with |- context [is_digit ?c] => change (is_digit c) with true end;
      cbv iota; now rewrite Hval.
  - cbn [Z.to_int NilZero.string_of_int].
    destruct (string_of_to_uint p) as (-> & c & r & Hs & Hc).
    change (String "-" ?s ++ suffix) with (String "-" (s ++ suffix)).
    rewrite (trim_start_ascii "-" _ eq_refl eq_refl).
    change (String "-" (?s ++ suffix)) with (String "-" s ++ suffix). rewrite Hte.
    change (String "-" ?s ++ suffix) with (String "-" (s ++ suffix)).
    rewrite (trim_start_ascii "-" _ eq_refl eq_refl).
    assert (Hst : starts_with_digit (NilEmpty.string_of_uint (Pos.to_uint p) ++ suffix) = true).
    { rewrite Hs. exact Hc. }
    cbv iota. rewrite Hst, digits_of_uint, uint_value_to_uint, Hv. reflexivity.
Qed.

(** The counts of a report survive the display.  For a report whose
    overall verdict is text and whose counts are integers that a number
    holds exactly (below 2^53 in size), the counts that [extract] reads
    back from the panel after [renderCrosscheck] are the counts of the
    report, also when the rendering of the tests fails. *)
Theorem counts_survive_the_display (payload : JsValue) (w : World) (overall : string)
    (a b : Z) :
  get payload "overall" = JStr overall ->
  get payload "counts" = JObj [("pass", JInt a); ("fail", JInt b)] ->
  safe_integer a = true -> safe_integer b = true ->
  get (extract (panel (snd (renderCrosscheck payload w)))) "counts"
  = JObj [("pass", JInt a); ("fail", JInt b)].
Proof.
  intros Ho Hc _ _. rewrite PresenterFacts.renderCrosscheck_eq. cbn [snd].
  assert (Hn : nullish payload = false) by (destruct payload; try reflexivity; discriminate Ho).
  assert (Hs : exists o, or_else (get payload "overall") (JStr "mixed") = JStr o).
  { rewrite Ho. unfold or_else. destruct (truthy (JStr overall)); eexists; reflexivity. }
  destruct Hs as [o Hs].
  unfold render_panel, payload_counts, set_panel. cbn [panel].
  rewrite Hn, Hs, Hc.
  change (or_else (JObj ?f) ?d) with (JObj f).
  change (get (JObj [("pass", JInt a); ("fail", JInt b)]) "pass") with (JInt a).
  change (get (JObj [("pass", JInt a); ("fail", JInt b)]) "fail") with (JInt b).
  unfold extract. cbn [countPass countFail].
  change (get (JObj ?f) "counts") with (lookup "counts" f).
  cbn [lookup String.eqb Ascii.eqb Bool.eqb].
  now rewrite !count_read_back by reflexivity.
Qed.

Lemma counts_survive_the_display_witness :
  get (extract (panel (snd (renderCrosscheck sample_report sample_world)))) "counts"
  = JObj [("pass", JInt 1); ("fail", JInt 1)].
Proof.
  exact (counts_survive_the_display sample_report sample_world "mixed" 1 1 eq_refl eq_refl
           eq_refl eq_refl).
Defined.
End Orchestration.
